(** * The fraud-detection scoring service ([src/api/api_fraude.py])

    A shallow embedding of the inference-serving core of the Flask
    application: the [ModelManager] class ([load_models], [validate_input],
    [preprocess_data]) and the routes [/health], [/predict] and the test
    helper [_execute_test].

    Python values are embedded as follows.
    - [float] is Rocq's primitive binary64 float, the representation of
      Python's [float]; a literal such as [0.8] denotes the same double in
      both languages.
    - [int] is [Z] (unbounded, as in Python).
    - a JSON payload is a [value]; a [dict] is an association list read by
      its first matching key.
    - an exception is a value of [Exception]; code that may raise returns a
      [result].
    - the model manager is a global object that methods and routes read
      and write: it lives in the state of the monad [M], next to a log of
      the calls made to the validator, the preprocessor and the classifier. *)

From Stdlib Require Import ZArith List String Ascii Bool Lia.
From Stdlib Require Import Floats DecimalString.
Import ListNotations.

Set Warnings "-inexact-float,-register-all".

Open Scope string_scope.
Open Scope Z_scope.

(** ** Exceptions and results *)

(** The classes of [Exception] that the code or the interpreter raises here.
    All of them derive from [Exception], so [except Exception] catches each. *)
Inductive ExnClass : Type :=
| FileNotFoundError
| ImportError
| AttributeError
| TypeError
| ValueError
| OverflowError
| KeyError
| IndexError
| OtherException.

(** An exception object: its class and the text [str(e)] gives. The texts of
    the exceptions the interpreter raises follow CPython 3.12, abridged where
    the type of the object is not modelled; the statements below speak of
    the class only. *)
Record Exception : Type := mkExn { exn_class : ExnClass; exn_str : string }.

Inductive result (A : Type) : Type :=
| Ok (a : A)
| Raise (e : Exception).
Arguments Ok {A} a.
Arguments Raise {A} e.

(** ** A small monad interface, for [result] and for the stateful [M] below *)

Class Monad (m : Type -> Type) : Type :=
  { ret : forall {A : Type}, A -> m A;
    bind : forall {A B : Type}, m A -> (A -> m B) -> m B }.

Declare Scope py_scope.
Delimit Scope py_scope with py.
Notation "x <- c ;; k" := (bind c (fun x => k))
  (at level 61, c at next level, right associativity) : py_scope.
Notation "' p <- c ;; k" := (bind c (fun x => match x with p => k end))
  (at level 61, p pattern, c at next level, right associativity) : py_scope.
Notation "c ;; k" := (bind c (fun _ => k))
  (at level 61, right associativity) : py_scope.
Open Scope py_scope.

#[export] Instance Monad_result : Monad result :=
  { ret := fun A a => Ok a;
    bind := fun A B r k => match r with Ok a => k a | Raise e => Raise e end }.

(** [for x in xs: ys.append(f x)], stopping at the first exception. *)
Fixpoint mapM {A B : Type} (f : A -> result B) (xs : list A) : result (list B) :=
  match xs with
  | [] => Ok []
  | x :: rest => y <- f x ;; ys <- mapM f rest ;; ret (y :: ys)
  end.

(** ** Python values *)

(** What [request.get_json] can return, and the plain data a pickle holds. *)
Inductive value : Type :=
| VNone
| VBool (b : bool)
| VInt (n : Z)
| VFloat (f : float)
| VStr (s : string)
| VList (items : list value)
| VDict (items : list (string * value)).

Fixpoint dict_get (kvs : list (string * value)) (k : string) : option value :=
  match kvs with
  | [] => None
  | (k', v) :: rest => if String.eqb k' k then Some v else dict_get rest k
  end.

(** The parts of the Python runtime that are taken as given: the parser
    behind [float(str)] ([None] for a string it rejects with [ValueError])
    and the builtin [round(x, ndigits)] on floats. *)
Record Runtime : Type :=
  { float_of_str : string -> option float;
    py_round : float -> Z -> float }.

(** [repr] of a [str] without quotes or escapes in it, as every name below is. *)
Definition py_repr_str (s : string) : string := "'" ++ s ++ "'".

(** [type(v).__name__], as the interpreter's messages print it. *)
Definition py_type_name (v : value) : string :=
  match v with
  | VNone => "NoneType"
  | VBool _ => "bool"
  | VInt _ => "int"
  | VFloat _ => "float"
  | VStr _ => "str"
  | VList _ => "list"
  | VDict _ => "dict"
  end.

(** [bool(v)], as [if not dados] tests it. *)
Definition py_truth (v : value) : bool :=
  match v with
  | VNone => false
  | VBool b => b
  | VInt n => negb (n =? 0)
  | VFloat f => negb (f =? 0)%float
  | VStr s => negb (String.eqb s "")
  | VList items => match items with [] => false | _ => true end
  | VDict items => match items with [] => false | _ => true end
  end.

(** [float(n)] for an [int]: the nearest double, ties to even;
    [OverflowError] when that is beyond the largest finite double. *)
Definition float_of_int (n : Z) : result float :=
  match binary_normalize prec emax n 0 false with
  | S754_infinity _ => Raise (mkExn OverflowError "int too large to convert to float")
  | sf => Ok (SF2Prim sf)
  end.

(** The builtin [float(v)]. *)
Definition py_float (rt : Runtime) (v : value) : result float :=
  match v with
  | VBool b => Ok (if b then 1 else 0)%float
  | VInt n => float_of_int n
  | VFloat f => Ok f
  | VStr s =>
      match float_of_str rt s with
      | Some f => Ok f
      | None =>
          Raise (mkExn ValueError ("could not convert string to float: " ++ py_repr_str s))
      end
  | VNone | VList _ | VDict _ =>
      Raise (mkExn TypeError
               ("float() argument must be a string or a real number, not "
                ++ py_repr_str (py_type_name v)))
  end.

(** [v < 0], the comparison of a payload value with the [int] zero. *)
Definition py_lt_zero (v : value) : result bool :=
  match v with
  | VBool _ => Ok false
  | VInt n => Ok (n <? 0)
  | VFloat f => Ok (f <? 0)%float
  | VNone | VStr _ | VList _ | VDict _ =>
      Raise (mkExn TypeError
               ("'<' not supported between instances of "
                ++ py_repr_str (py_type_name v) ++ " and 'int'"))
  end.

(** [key in container], for a [str] key. *)
Definition py_contains (container : value) (key : string) : result bool :=
  match container with
  | VDict items => Ok (match dict_get items key with Some _ => true | None => false end)
  | VList items =>
      Ok (existsb (fun x => match x with VStr s => String.eqb s key | _ => false end) items)
  | VStr s => Ok (match index 0 key s with Some _ => true | None => false end)
  | VNone | VBool _ | VInt _ | VFloat _ =>
      Raise (mkExn TypeError
               ("argument of type " ++ py_repr_str (py_type_name container)
                ++ " is not iterable"))
  end.

(** [container[key]], for a [str] key. *)
Definition py_getitem (container : value) (key : string) : result value :=
  match container with
  | VDict items =>
      match dict_get items key with
      | Some v => Ok v
      | None => Raise (mkExn KeyError (py_repr_str key))
      end
  | VList _ => Raise (mkExn TypeError "list indices must be integers or slices, not str")
  | VStr _ => Raise (mkExn TypeError "string indices must be integers, not 'str'")
  | VNone | VBool _ | VInt _ | VFloat _ =>
      Raise (mkExn TypeError
               (py_repr_str (py_type_name container) ++ " object is not subscriptable"))
  end.

(** [xs[i]] on a sequence. *)
Definition py_index {A : Type} (xs : list A) (i : nat) : result A :=
  match nth_error xs i with
  | Some x => Ok x
  | None => Raise (mkExn IndexError "index out of range")
  end.

(** [str(i)] for a natural number, and [repr] of a list of names. *)
Definition str_of_nat (i : nat) : string := NilZero.string_of_uint (Nat.to_uint i).

Definition py_repr_list (names : list string) : string :=
  "[" ++ String.concat ", " (map py_repr_str names) ++ "]".

(** ** Artifacts, the environment and the model manager *)

(** The classifier object: [predict] gives one label per row and
    [predict_proba] one probability row per input row. Labels are taken as
    integers and probabilities as doubles. *)
Record Classifier : Type :=
  { clf_predict : list (list float) -> result (list Z);
    clf_predict_proba : list (list float) -> result (list (list float)) }.

(** The amount scaler: [transform] maps a 2-D array to a 2-D array. *)
Record Scaler : Type :=
  { scaler_transform : list (list float) -> result (list (list float)) }.

(** An object held by the manager or returned by [joblib.load]. *)
Inductive pyobj : Type :=
| PyClassifier (c : Classifier)
| PyScaler (s : Scaler)
| PyData (v : value).

(** What the process finds around it: the file system as [os.path.exists] and
    [joblib.load] see it, scikit-learn's [StandardScaler().fit] (raising
    [ImportError] when the package is absent), and whether [flask_cors] was
    imported. *)
Record Env : Type :=
  { path_exists : string -> bool;
    joblib_load : string -> result pyobj;
    StandardScaler_fit : list float -> result Scaler;
    CORS_AVAILABLE : bool }.

(** [datetime.now()] as a handler reads it: the ISO text of its k-th reading,
    and the milliseconds between the first two readings. *)
Record Clock : Type :=
  { now_iso : nat -> string;
    elapsed_ms : float }.

(** The request: what [request.get_json(force=True)] gives. *)
Record Request : Type :=
  { get_json : result value }.

Record ModelManager : Type := mkManager
  { modelo : pyobj;
    scaler : pyobj;
    feature_names : pyobj;
    metadata : pyobj;
    model_loaded : bool }.

(** [ModelManager.__init__]. *)
Definition ModelManager_init : ModelManager :=
  mkManager (PyData VNone) (PyData VNone) (PyData VNone) (PyData VNone) false.

Definition set_modelo (o : pyobj) (self : ModelManager) : ModelManager :=
  mkManager o (scaler self) (feature_names self) (metadata self) (model_loaded self).
Definition set_scaler (o : pyobj) (self : ModelManager) : ModelManager :=
  mkManager (modelo self) o (feature_names self) (metadata self) (model_loaded self).
Definition set_feature_names (o : pyobj) (self : ModelManager) : ModelManager :=
  mkManager (modelo self) (scaler self) o (metadata self) (model_loaded self).
Definition set_metadata (o : pyobj) (self : ModelManager) : ModelManager :=
  mkManager (modelo self) (scaler self) (feature_names self) o (model_loaded self).
Definition set_model_loaded (b : bool) (self : ModelManager) : ModelManager :=
  mkManager (modelo self) (scaler self) (feature_names self) (metadata self) b.

(** Method calls on an object; an object without the method raises
    [AttributeError]. *)
Definition no_attribute {A : Type} (name : string) : result A :=
  Raise (mkExn AttributeError ("object has no attribute " ++ py_repr_str name)).

Definition obj_predict (o : pyobj) (x : list (list float)) : result (list Z) :=
  match o with
  | PyClassifier c => clf_predict c x
  | _ => no_attribute "predict"
  end.

Definition obj_predict_proba (o : pyobj) (x : list (list float))
  : result (list (list float)) :=
  match o with
  | PyClassifier c => clf_predict_proba c x
  | _ => no_attribute "predict_proba"
  end.

(** [o.transform], the bound method; Python looks it up before it evaluates
    the arguments of the call. *)
Definition obj_transform (o : pyobj)
  : result (list (list float) -> result (list (list float))) :=
  match o with
  | PyScaler s => Ok (scaler_transform s)
  | _ => no_attribute "transform"
  end.

(** [o.get(key, default)]: only a [dict] has it among the objects here. *)
Definition obj_get (o : pyobj) (key : string) (default : value) : result value :=
  match o with
  | PyData (VDict items) =>
      Ok (match dict_get items key with Some v => v | None => default end)
  | _ => no_attribute "get"
  end.

(** [len(s)] of a [str]: the number of its code points. The string holds
    their UTF-8 bytes, and each code point has exactly one byte that is not a
    continuation byte [10xxxxxx]. *)
Fixpoint str_len (s : string) : nat :=
  match s with
  | EmptyString => 0%nat
  | String (Ascii _ _ _ _ _ _ false true) rest => str_len rest
  | String _ rest => S (str_len rest)
  end.

(** [len(o)]. *)
Definition obj_len (o : pyobj) : result nat :=
  match o with
  | PyData (VList items) => Ok (List.length items)
  | PyData (VDict items) => Ok (List.length items)
  | PyData (VStr s) => Ok (str_len s)
  | _ => Raise (mkExn TypeError "object has no len()")
  end.

(** ** The state monad of the process *)

(** The calls a route makes into the scoring pipeline, in order. *)
Inductive Call : Type :=
| CallValidateInput (dados : value)
| CallPreprocessData (dados : value)
| CallPredict (x : list (list float))
| CallPredictProba (x : list (list float)).

Record World : Type := mkWorld
  { model_manager : ModelManager;
    calls : list Call }.

Definition M (A : Type) : Type := World -> result A * World.

#[export] Instance Monad_M : Monad M :=
  { ret := fun A a w => (Ok a, w);
    bind := fun A B c k w =>
      match c w with
      | (Ok a, w') => k a w'
      | (Raise e, w') => (Raise e, w')
      end }.

Definition lift {A : Type} (r : result A) : M A := fun w => (r, w).

(** [try: body / except Exception as e: handler e]. *)
Definition try_except {A : Type} (body : M A) (handler : Exception -> M A) : M A :=
  fun w =>
    match body w with
    | (Ok a, w') => (Ok a, w')
    | (Raise e, w') => handler e w'
    end.

Definition get_manager : M ModelManager := fun w => (Ok (model_manager w), w).

Definition update_manager (f : ModelManager -> ModelManager) : M unit :=
  fun w => (Ok tt, mkWorld (f (model_manager w)) (calls w)).

Definition call (c : Call) : M unit :=
  fun w => (Ok tt, mkWorld (model_manager w) (calls w ++ [c])).

(** ** [ModelManager.load_models] *)

Definition base_paths : list string := ["models/"; "../models/"; "./"].

(** The [model_files] dict, in insertion order. *)
Definition model_files : list (string * string) :=
  [("modelo", "modelo_fraude.pkl");
   ("scaler", "scaler_amount.pkl");
   ("features", "feature_names.pkl");
   ("metadata", "modelo_metadata.pkl")].

Fixpoint ends_with_slash (s : string) : bool :=
  match s with
  | EmptyString => false
  | String c EmptyString => Ascii.eqb c "/"
  | String _ rest => ends_with_slash rest
  end.

(** [os.path.join] of two components on a POSIX system. *)
Definition os_path_join (a b : string) : string :=
  if prefix "/" b then b
  else if String.eqb a "" || ends_with_slash a then a ++ b
  else a ++ "/" ++ b.

(** The inner [for base_path in base_paths] loop: the first candidate that
    exists, if any. *)
Definition find_in_base_paths (env : Env) (filename : string) : option string :=
  find (path_exists env) (map (fun base_path => os_path_join base_path filename) base_paths).

(** [model_paths]: a logical name to a path or [None]. *)
Definition Paths : Type := list (string * option string).

Definition paths_get (model_paths : Paths) (name : string) : result (option string) :=
  match find (fun kv => String.eqb (fst kv) name) model_paths with
  | Some kv => Ok (snd kv)
  | None => Raise (mkExn KeyError (py_repr_str name))
  end.

(** The outer [for model_name, filename in model_files.items()] loop. *)
Fixpoint locate_models (env : Env) (files : list (string * string)) (model_paths : Paths)
  : result Paths :=
  match files with
  | [] => Ok model_paths
  | (model_name, filename) :: rest =>
      match find_in_base_paths env filename with
      | Some full_path =>
          locate_models env rest (model_paths ++ [(model_name, Some full_path)])%list
      | None =>
          if String.eqb model_name "metadata" then
            locate_models env rest (model_paths ++ [(model_name, None)])%list
          else if String.eqb model_name "scaler" then
            locate_models env rest (model_paths ++ [(model_name, None)])%list
          else
            Raise (mkExn FileNotFoundError
                     ("Arquivo obrigatório não encontrado: " ++ filename))
      end
  end.

(** [if model_paths[name]:] holds for a non-empty path, not for [None]. *)
Definition path_truth (p : option string) : bool :=
  match p with
  | Some s => negb (String.eqb s "")
  | None => false
  end.

(** [joblib.load(p)]; it does not accept [None]. *)
Definition joblib_load_path (env : Env) (p : option string) : result pyobj :=
  match p with
  | Some s => joblib_load env s
  | None => Raise (mkExn TypeError "expected str, bytes or os.PathLike object, not NoneType")
  end.

(** [np.array([[0], [1], [25], [77], [2125.87]])], the sample the temporary
    scaler is fitted on. *)
Definition amount_sample : list float := [0; 1; 25; 77; 2125.87]%float.

(** [[f'V{i}' for i in range(1, 29)]]. *)
Definition V_names : list string := map (fun i => "V" ++ str_of_nat i) (seq 1 28).

Definition default_feature_names : value :=
  VList (map VStr (V_names ++ ["Amount_Norm"])).

Definition default_metadata (numero_features : nat) : value :=
  VDict [("modelo_tipo", VStr "XGBoost");
         ("versao_modelo", VStr "1.0.0");
         ("numero_features", VInt (Z.of_nat numero_features));
         ("data_treinamento", VStr "Não disponível")].

(** The body of the [try] block. The [logger] calls only write to the log and
    are left out, except that the arguments of the last three are evaluated. *)
Definition load_models_try (env : Env) : M bool :=
  model_paths <- lift (locate_models env model_files []) ;;
  (* Modelo principal (obrigatório) *)
  p_modelo <- lift (paths_get model_paths "modelo") ;;
  o_modelo <- lift (joblib_load_path env p_modelo) ;;
  update_manager (set_modelo o_modelo) ;;
  (* Scaler (criar um temporário se não existir) *)
  p_scaler <- lift (paths_get model_paths "scaler") ;;
  (if path_truth p_scaler then
     o <- lift (joblib_load_path env p_scaler) ;;
     update_manager (set_scaler o)
   else
     s <- lift (StandardScaler_fit env amount_sample) ;;
     update_manager (set_scaler (PyScaler s))) ;;
  (* Features (tentar carregar ou criar padrão) *)
  p_features <- lift (paths_get model_paths "features") ;;
  (if path_truth p_features then
     o <- lift (joblib_load_path env p_features) ;;
     update_manager (set_feature_names o)
   else
     update_manager (set_feature_names (PyData default_feature_names))) ;;
  (* Metadata (opcional) *)
  p_metadata <- lift (paths_get model_paths "metadata") ;;
  (if path_truth p_metadata then
     o <- lift (joblib_load_path env p_metadata) ;;
     update_manager (set_metadata o)
   else
     self <- get_manager ;;
     n <- lift (obj_len (feature_names self)) ;;
     update_manager (set_metadata (PyData (default_metadata n)))) ;;
  update_manager (set_model_loaded true) ;;
  (* Log das informações do modelo *)
  self <- get_manager ;;
  lift (obj_get (metadata self) "modelo_tipo" (VStr "Desconhecido")) ;;
  lift (obj_get (metadata self) "numero_features" (VStr "N/A")) ;;
  lift (obj_get (metadata self) "data_treinamento" (VStr "N/A")) ;;
  ret true.

Definition load_models (env : Env) : M bool :=
  try_except (load_models_try env)
    (fun e => update_manager (set_model_loaded false) ;; ret false).

(** ** [ModelManager.validate_input] *)

Definition required_fields : list string := (V_names ++ ["Amount"])%list.

(** [[field for field in required_fields if field not in dados]]. *)
Fixpoint missing_fields (dados : value) (fields : list string) : result (list string) :=
  match fields with
  | [] => Ok []
  | field :: rest =>
      present <- py_contains dados field ;;
      others <- missing_fields dados rest ;;
      ret (if (present : bool) then others else field :: others)
  end.

(** [float(dados[field])]. *)
Definition float_item (rt : Runtime) (dados : value) (field : string) : result float :=
  v <- py_getitem dados field ;; py_float rt v.

(** The [for field in required_fields] loop around
    [try: float(dados[field]) / except (ValueError, TypeError): return ...].
    [Some r] is the early [return r]; an exception of another class leaves the
    function. *)
Fixpoint check_types (rt : Runtime) (dados : value) (fields : list string)
  : result (option (bool * string)) :=
  match fields with
  | [] => Ok None
  | field :: rest =>
      match float_item rt dados field with
      | Ok _ => check_types rt dados rest
      | Raise e =>
          match exn_class e with
          | ValueError | TypeError =>
              Ok (Some (false, "Campo '" ++ field ++ "' deve ser um número válido"))
          | _ => Raise e
          end
      end
  end.

Definition validate_input (rt : Runtime) (dados : value) : result (bool * string) :=
  (* Verificar campos obrigatórios *)
  missing <- missing_fields dados required_fields ;;
  match missing with
  | _ :: _ =>
      ret (false, "Campos obrigatórios não encontrados: " ++ py_repr_list missing)
  | [] =>
      (* Verificar tipos de dados *)
      early <- check_types rt dados required_fields ;;
      match early with
      | Some r => ret r
      | None =>
          (* Verificar ranges válidos *)
          amount <- py_getitem dados "Amount" ;;
          negative <- py_lt_zero amount ;;
          if (negative : bool) then ret (false, "Amount deve ser maior ou igual a zero")
          else ret (true, "Dados válidos")
      end
  end.

(** ** [ModelManager.preprocess_data] *)

(** The result is the 2-D array [np.array([features])], one row. In
    [self.scaler.transform([[float(dados['Amount'])]])[0][0]] the method is
    looked up first, then the argument is evaluated, then the call is made
    and its result indexed. *)
Definition preprocess_data (rt : Runtime) (self : ModelManager) (dados : value)
  : result (list (list float)) :=
  (* Adicionar features V1 a V28 *)
  features <- mapM (fun i => float_item rt dados ("V" ++ str_of_nat i)) (seq 1 28) ;;
  (* Normalizar Amount e adicionar *)
  transform <- obj_transform (scaler self) ;;
  x <- float_item rt dados "Amount" ;;
  transformed <- transform [[x]] ;;
  row <- py_index transformed 0 ;;
  amount_normalized <- py_index row 0 ;;
  ret [(features ++ [amount_normalized])%list].

(** ** The routes *)

(** A response: the JSON body and the HTTP status code. *)
Definition Response : Type := (value * Z)%type.

(** [d[key] = v] on a dict. *)
Fixpoint dict_set (kvs : list (string * value)) (key : string) (v : value)
  : list (string * value) :=
  match kvs with
  | [] => [(key, v)]
  | (k, old) :: rest =>
      if String.eqb k key then (k, v) :: rest else (k, old) :: dict_set rest key v
  end.

(** [d[key] == s] for a key the dict holds. *)
Definition dict_is_str (kvs : list (string * value)) (key s : string) : bool :=
  match dict_get kvs key with
  | Some (VStr s') => String.eqb s' s
  | _ => false
  end.

(** [GET /health]. *)
Definition health_check (env : Env) (clock : Clock) : M Response :=
  try_except
    (self <- get_manager ;;
     let status :=
       [("timestamp", VStr (now_iso clock 0));
        ("api_status", VStr "healthy");
        ("model_loaded", VBool (model_loaded self));
        ("version", VStr "2.0.0");
        ("cors_enabled", VBool (CORS_AVAILABLE env))] in
     status <-
       (if model_loaded self then
          (* Teste rápido do modelo *)
          n <- lift (obj_len (feature_names self)) ;;
          let test_data := [repeat 0%float n] in
          call (CallPredict test_data) ;;
          lift (obj_predict (modelo self) test_data) ;;
          ret (dict_set status "model_status" (VStr "healthy"))
        else
          ret (dict_set (dict_set status "model_status" (VStr "error"))
                        "api_status" (VStr "degraded"))) ;;
     ret (VDict status,
          if dict_is_str status "api_status" "healthy" then 200 else 503))
    (fun e =>
       ret (VDict [("timestamp", VStr (now_iso clock 1));
                   ("api_status", VStr "error");
                   ("model_status", VStr "error");
                   ("error", VStr (exn_str e))],
            500)).

(** The risk tier of [predict], from the fraud probability. *)
Definition risk_level (prob_fraude : float) : string :=
  if (0.8 <=? prob_fraude)%float then "MUITO_ALTO"
  else if (0.6 <=? prob_fraude)%float then "ALTO"
  else if (0.4 <=? prob_fraude)%float then "MEDIO"
  else if (0.2 <=? prob_fraude)%float then "BAIXO"
  else "MUITO_BAIXO".

(** The [response] dict of a successful prediction. The probabilities are
    doubles here; a classifier that returns 32-bit floats has [confianca]
    compared in that precision by NumPy 2, which is not modelled. *)
Definition prediction_response (rt : Runtime) (clock : Clock) (resultado : Z)
  (prob_fraude prob_normal : float) (modelo_tipo : value) : value :=
  VDict
    [("resultado",
      VDict [("fraude", VInt resultado);
             ("probabilidade_fraude", VFloat (py_round rt prob_fraude 4));
             ("probabilidade_normal", VFloat (py_round rt prob_normal 4));
             ("status", VStr (if resultado =? 1 then "FRAUDE" else "NORMAL"));
             ("nivel_risco", VStr (risk_level prob_fraude))]);
     ("metadados",
      VDict [("timestamp", VStr (now_iso clock 0));
             ("processing_time_ms", VFloat (py_round rt (elapsed_ms clock) 2));
             ("modelo_tipo", modelo_tipo);
             ("versao_api", VStr "2.0.0")]);
     ("recomendacao",
      VDict [("acao", VStr (if resultado =? 1 then "BLOQUEAR" else "APROVAR"));
             ("confianca",
              VStr (if (0.3 <? abs (prob_fraude - 0.5))%float then "ALTA" else "MEDIA"))])].

Definition error_response (clock : Clock) (erro status : string) : value :=
  VDict [("erro", VStr erro); ("status", VStr status);
         ("timestamp", VStr (now_iso clock 0))].

(** The [try] block of [POST /predict]. *)
Definition predict_try (rt : Runtime) (clock : Clock) (request : Request) : M Response :=
  (* Verificar se o modelo está carregado *)
  self <- get_manager ;;
  if negb (model_loaded self) then
    ret (error_response clock "Modelo não carregado" "ERROR", 503)
  else
    (* Obter dados da requisição *)
    dados <- lift (get_json request) ;;
    if negb (py_truth dados) then
      ret (error_response clock "Dados JSON não fornecidos" "ERROR", 400)
    else
      (* Validar dados de entrada *)
      call (CallValidateInput dados) ;;
      ' (is_valid, validation_message) <- lift (validate_input rt dados) ;;
      if negb is_valid then
        ret (error_response clock validation_message "VALIDATION_ERROR", 400)
      else
        (* Preprocessar dados *)
        call (CallPreprocessData dados) ;;
        entrada <- lift (preprocess_data rt self dados) ;;
        (* Fazer predição *)
        call (CallPredict entrada) ;;
        labels <- lift (obj_predict (modelo self) entrada) ;;
        resultado <- lift (py_index labels 0) ;;
        call (CallPredictProba entrada) ;;
        probas <- lift (obj_predict_proba (modelo self) entrada) ;;
        probabilidades <- lift (py_index probas 0) ;;
        prob_fraude <- lift (py_index probabilidades 1) ;;
        (* Resposta estruturada *)
        prob_normal <- lift (py_index probabilidades 0) ;;
        modelo_tipo <- lift (obj_get (metadata self) "modelo_tipo" (VStr "N/A")) ;;
        ret (prediction_response rt clock resultado prob_fraude prob_normal modelo_tipo,
             200).

(** [POST /predict], with its two [except] clauses. *)
Definition predict (rt : Runtime) (clock : Clock) (request : Request) : M Response :=
  try_except (predict_try rt clock request)
    (fun e =>
       match exn_class e with
       | KeyError =>
           ret (error_response clock
                  ("Campo obrigatório não encontrado: " ++ exn_str e)
                  "VALIDATION_ERROR", 400)
       | _ =>
           ret (error_response clock
                  ("Erro interno do servidor: " ++ exn_str e)
                  "INTERNAL_ERROR", 500)
       end).

(** [_execute_test], the helper behind [GET /test] and [GET /test/fraud]. *)
Definition _execute_test (rt : Runtime) (clock : Clock) (dados_teste : value)
  (descricao : string) : M Response :=
  try_except
    (self <- get_manager ;;
     if negb (model_loaded self) then
       ret (VDict [("erro", VStr "Modelo não carregado para teste");
                   ("status", VStr "ERROR")], 503)
     else
       (* Preprocessar e predizer *)
       call (CallPreprocessData dados_teste) ;;
       entrada <- lift (preprocess_data rt self dados_teste) ;;
       call (CallPredict entrada) ;;
       labels <- lift (obj_predict (modelo self) entrada) ;;
       resultado <- lift (py_index labels 0) ;;
       call (CallPredictProba entrada) ;;
       probas <- lift (obj_predict_proba (modelo self) entrada) ;;
       probabilidades <- lift (py_index probas 0) ;;
       prob_fraude <- lift (py_index probabilidades 1) ;;
       prob_normal <- lift (py_index probabilidades 0) ;;
       ret (VDict
              [("teste", VDict [("descricao", VStr descricao);
                                ("dados_entrada", dados_teste)]);
               ("resultado",
                VDict [("fraude", VInt resultado);
                       ("probabilidade_fraude", VFloat (py_round rt prob_fraude 4));
                       ("probabilidade_normal", VFloat (py_round rt prob_normal 4));
                       ("status", VStr (if resultado =? 1 then "FRAUDE" else "NORMAL"))]);
               ("timestamp", VStr (now_iso clock 0))],
            200))
    (fun e =>
       ret (VDict [("erro", VStr ("Erro durante o teste: " ++ exn_str e));
                   ("status", VStr "TEST_ERROR")], 500)).

(** ** Vocabulary of the statements *)

(** [body[k1][k2]...] on a JSON body. *)
Fixpoint json_path (body : value) (keys : list string) : option value :=
  match keys with
  | [] => Some body
  | k :: rest =>
      match body with
      | VDict items =>
          match dict_get items k with
          | Some v => json_path v rest
          | None => None
          end
      | _ => None
      end
  end.

(** The smoke prediction of [health_check]:
    [modelo.predict(np.zeros((1, len(feature_names))))]. *)
Definition smoke_prediction (self : ModelManager) : result (list Z) :=
  n <- obj_len (feature_names self) ;;
  obj_predict (modelo self) [repeat 0%float n].

(** Scoring requests served one after the other by [POST /predict]. *)
Fixpoint serve_predict (rt : Runtime) (requests : list (Clock * Request)) (w : World)
  : list (result Response) * World :=
  match requests with
  | [] => ([], w)
  | (clock, request) :: rest =>
      let (r, w') := predict rt clock request w in
      let (rs, w'') := serve_predict rt rest w' in
      (r :: rs, w'')
  end.

(** The response of [POST /predict] when no model is loaded. *)
Definition unavailable (clock : Clock) : Response :=
  (error_response clock "Modelo não carregado" "ERROR", 503).

(** A payload value that is a JSON boolean or number. *)
Definition bool_or_number (v : value) : bool :=
  match v with
  | VBool _ | VInt _ | VFloat _ => true
  | _ => false
  end.

(** A payload value that is a number below zero. *)
Definition negative_number (v : value) : bool :=
  match v with
  | VInt n => n <? 0
  | VFloat f => (f <? 0)%float
  | _ => false
  end.

(** [float(v)] returns. *)
Definition convertible (rt : Runtime) (v : value) : Prop :=
  exists x, py_float rt v = Ok x.

(** The payload is a mapping that holds every required key, each with a
    value satisfying [P]. *)
Definition all_required (P : value -> Prop) (items : list (string * value)) : Prop :=
  forall field, In field required_fields ->
    exists v, dict_get items field = Some v /\ P v.

(** ** Sample inputs *)

(** A runtime whose [float(str)] reads the two strings used below. *)
Definition sample_runtime : Runtime :=
  {| float_of_str := fun s =>
       if String.eqb s "-5" then Some (-5)%float
       else if String.eqb s "1.5" then Some 1.5%float
       else None;
     py_round := fun x _ => x |}.

Definition sample_clock : Clock :=
  {| now_iso := fun _ => "2025-07-07T12:00:00"; elapsed_ms := 1.5 |}.

(** A payload with [v] under every [V1..V28] and [amount] under [Amount]. *)
Definition payload (v amount : value) : list (string * value) :=
  (map (fun name => (name, v)) V_names ++ [("Amount", amount)])%list.

(** A payload with an integer of 401 digits under [V1]. *)
Definition payload_huge_V1 : list (string * value) :=
  ("V1", VInt (10 ^ 400)) :: payload (VFloat 0) (VFloat 1).

(** A classifier that answers label [label] and probabilities [[1-p, p]]. *)
Definition constant_classifier (label : Z) (p : float) : Classifier :=
  {| clf_predict := fun _ => Ok [label];
     clf_predict_proba := fun _ => Ok [[(1 - p)%float; p]] |}.

(** A classifier whose [predict] raises. *)
Definition failing_classifier : Classifier :=
  {| clf_predict := fun _ => Raise (mkExn ValueError "Feature shape mismatch");
     clf_predict_proba := fun _ => Raise (mkExn ValueError "Feature shape mismatch") |}.

Definition identity_scaler : Scaler := {| scaler_transform := fun x => Ok x |}.

(** A directory tree holding only [models/modelo_fraude.pkl]. *)
Definition env_classifier_only : Env :=
  {| path_exists := fun p => String.eqb p "models/modelo_fraude.pkl";
     joblib_load := fun p =>
       if String.eqb p "models/modelo_fraude.pkl"
       then Ok (PyClassifier (constant_classifier 0 0.1))
       else Raise (mkExn FileNotFoundError p);
     StandardScaler_fit := fun _ => Ok identity_scaler;
     CORS_AVAILABLE := false |}.

(** A directory tree holding the classifier and the feature-name list. *)
Definition env_classifier_features : Env :=
  {| path_exists := fun p =>
       String.eqb p "models/modelo_fraude.pkl" || String.eqb p "models/feature_names.pkl";
     joblib_load := fun p =>
       if String.eqb p "models/modelo_fraude.pkl"
       then Ok (PyClassifier (constant_classifier 0 0.1))
       else if String.eqb p "models/feature_names.pkl"
       then Ok (PyData default_feature_names)
       else Raise (mkExn FileNotFoundError p);
     StandardScaler_fit := fun _ => Ok identity_scaler;
     CORS_AVAILABLE := false |}.

(** An empty directory tree. *)
Definition env_empty : Env :=
  {| path_exists := fun _ => false;
     joblib_load := fun p => Raise (mkExn FileNotFoundError p);
     StandardScaler_fit := fun _ => Ok identity_scaler;
     CORS_AVAILABLE := false |}.

Definition initial_world : World := mkWorld ModelManager_init [].

(** A loaded manager around classifier [c]. *)
Definition ready_manager (c : Classifier) : ModelManager :=
  mkManager (PyClassifier c) (PyScaler identity_scaler) (PyData default_feature_names)
            (PyData (default_metadata 29)) true.

(** ** The remaining routes and the start-up code *)

(** [bool(o)] of an object: plain data as Python has it, any other object
    true. *)
Definition obj_truth (o : pyobj) : bool :=
  match o with
  | PyData v => py_truth v
  | _ => true
  end.

(** [v.get(key, default)] on a value taken out of a dict. *)
Definition value_get (v : value) (key : string) (default : value) : result value :=
  match v with
  | VDict items => Ok (match dict_get items key with Some x => x | None => default end)
  | _ => no_attribute "get"
  end.

(** What [jsonify] makes of an object placed in a body: plain data is
    serialized as it is, a classifier or scaler object is refused. *)
Definition jsonify_obj (o : pyobj) : result value :=
  match o with
  | PyData v => Ok v
  | _ => Raise (mkExn TypeError "Object is not JSON serializable")
  end.

(** [GET /]: the keyword arguments handed to [render_template_string]; the
    HTML text the template engine makes of them is not modelled. The route
    has no [try] of its own. *)
Definition home (env : Env) : M (list (string * value)) :=
  self <- get_manager ;;
  (* Verificar status do modelo *)
  let status_class := if model_loaded self then "success" else "error" in
  let status_message :=
    if model_loaded self then "✅ Sistema operacional - Modelo carregado"
    else "❌ Sistema com problemas - Modelo não carregado" in
  let model_info :=
    if model_loaded self then
      (if obj_truth (metadata self) then metadata self else PyData (VDict []))
    else PyData (VDict []) in
  model_type <- lift (obj_get model_info "modelo_tipo" (VStr "N/A")) ;;
  num_features <- lift (obj_get model_info "numero_features" (VStr "N/A")) ;;
  model_version <- lift (obj_get model_info "versao_modelo" (VStr "N/A")) ;;
  train_date <- lift (obj_get model_info "data_treinamento" (VStr "N/A")) ;;
  ret [("status_class", VStr status_class);
       ("status_message", VStr status_message);
       ("model_type", model_type);
       ("num_features", num_features);
       ("model_version", model_version);
       ("train_date", train_date);
       ("cors_status",
        VStr (if CORS_AVAILABLE env then "Habilitado" else "Desabilitado"))].

(** [GET /info]. The readiness test stands before the [try]. *)
Definition model_info (env : Env) (clock : Clock) : M Response :=
  self <- get_manager ;;
  if negb (model_loaded self) then
    ret (VDict [("erro", VStr "Modelo não carregado"); ("status", VStr "ERROR")], 503)
  else
    try_except
      (tipo <- lift (obj_get (metadata self) "modelo_tipo" (VStr "N/A")) ;;
       versao <- lift (obj_get (metadata self) "versao_modelo" (VStr "N/A")) ;;
       data_treinamento <- lift (obj_get (metadata self) "data_treinamento" (VStr "N/A")) ;;
       numero_features <- lift (obj_get (metadata self) "numero_features" (VStr "N/A")) ;;
       performance <- lift (obj_get (metadata self) "metricas_teste" (VDict [])) ;;
       features <- lift (jsonify_obj (feature_names self)) ;;
       ret (VDict
              [("modelo",
                VDict [("tipo", tipo);
                       ("versao", versao);
                       ("data_treinamento", data_treinamento);
                       ("numero_features", numero_features)]);
               ("performance", performance);
               ("features", features);
               ("api",
                VDict [("versao", VStr "2.0.0");
                       ("cors_enabled", VBool (CORS_AVAILABLE env));
                       ("timestamp", VStr (now_iso clock 0))])],
            200))
      (fun e =>
         ret (VDict [("erro", VStr ("Erro ao obter informações: " ++ exn_str e));
                     ("status", VStr "ERROR")], 500)).

(** [initialize_app]: the load and the values its [print] lines format; the
    console output itself is not modelled. Nothing here is inside a [try]. *)
Definition initialize_app (env : Env) : M unit :=
  (* Tentar carregar os modelos *)
  loaded <- load_models env ;;
  if (loaded : bool) then
    self <- get_manager ;;
    lift (obj_get (metadata self) "modelo_tipo" (VStr "N/A")) ;;
    lift (obj_get (metadata self) "numero_features" (VStr "N/A")) ;;
    metricas_teste <- lift (obj_get (metadata self) "metricas_teste" (VDict [])) ;;
    lift (value_get metricas_teste "recall" (VStr "N/A")) ;;
    ret tt
  else
    ret tt.

(** The payload of [GET /test]. *)
Definition dados_teste_normal : value :=
  VDict
    [("V1", VFloat (-1.359807)); ("V2", VFloat (-0.072781)); ("V3", VFloat 2.536347);
     ("V4", VFloat 1.378155); ("V5", VFloat (-0.338321)); ("V6", VFloat 0.462388);
     ("V7", VFloat 0.239599); ("V8", VFloat 0.098698); ("V9", VFloat 0.363787);
     ("V10", VFloat 0.090794); ("V11", VFloat (-0.551600)); ("V12", VFloat (-0.617801));
     ("V13", VFloat (-0.991390)); ("V14", VFloat (-0.311169)); ("V15", VFloat 1.468177);
     ("V16", VFloat (-0.470401)); ("V17", VFloat 0.207971); ("V18", VFloat 0.025791);
     ("V19", VFloat 0.403993); ("V20", VFloat 0.251412); ("V21", VFloat (-0.018307));
     ("V22", VFloat 0.277838); ("V23", VFloat (-0.110474)); ("V24", VFloat 0.066928);
     ("V25", VFloat 0.128539); ("V26", VFloat (-0.189115)); ("V27", VFloat 0.133558);
     ("V28", VFloat (-0.021053)); ("Amount", VFloat 149.62)].

(** The payload of [GET /test/fraud]. *)
Definition dados_teste_fraud : value :=
  VDict
    [("V1", VFloat (-4.832)); ("V2", VFloat 3.483); ("V3", VFloat (-5.069));
     ("V4", VFloat 2.672); ("V5", VFloat (-2.281)); ("V6", VFloat (-2.578));
     ("V7", VFloat (-3.292)); ("V8", VFloat (-0.753)); ("V9", VFloat (-1.822));
     ("V10", VFloat (-4.174)); ("V11", VFloat 3.498); ("V12", VFloat (-3.282));
     ("V13", VFloat (-0.237)); ("V14", VFloat (-7.749)); ("V15", VFloat 0.543);
     ("V16", VFloat (-2.298)); ("V17", VFloat (-2.493)); ("V18", VFloat (-0.569));
     ("V19", VFloat 0.992); ("V20", VFloat 0.798); ("V21", VFloat (-0.137));
     ("V22", VFloat 0.141); ("V23", VFloat (-0.206)); ("V24", VFloat 0.502);
     ("V25", VFloat 0.219); ("V26", VFloat (-0.167)); ("V27", VFloat 0.096);
     ("V28", VFloat (-0.017)); ("Amount", VFloat 1.00)].

(** [GET /test] and [GET /test/fraud]. *)
Definition test_normal (rt : Runtime) (clock : Clock) : M Response :=
  _execute_test rt clock dados_teste_normal "Transação Normal (Esperado: NORMAL)".

Definition test_fraud (rt : Runtime) (clock : Clock) : M Response :=
  _execute_test rt clock dados_teste_fraud "Transação Fraudulenta (Esperado: FRAUDE)".

(** *** [setup_logging] *)









(** *** Vocabulary of the further statements *)

(** Object [o] is what [joblib.load] gives for [filename] at the first
    candidate directory that holds it. *)
Definition loaded_from (env : Env) (filename : string) (o : pyobj) : Prop :=
  exists full_path,
    find_in_base_paths env filename = Some full_path /\
    joblib_load env full_path = Ok o.

(** The manager holds a dict as metadata. *)
Definition metadata_is_dict (self : ModelManager) : Prop :=
  exists items, metadata self = PyData (VDict items).

(** The conditions on the environment under which the [try] block of
    [load_models] completes: the classifier and the feature names are
    located and load; the scaler loads when located and is fitted otherwise;
    the metadata, when located, loads as a dict, and otherwise the feature
    names have a length. *)
Definition load_conditions (env : Env) : Prop :=
  (exists o, loaded_from env "modelo_fraude.pkl" o) /\
  match find_in_base_paths env "scaler_amount.pkl" with
  | Some full_path => exists o, joblib_load env full_path = Ok o
  | None => exists s, StandardScaler_fit env amount_sample = Ok s
  end /\
  exists o_features,
    loaded_from env "feature_names.pkl" o_features /\
    match find_in_base_paths env "modelo_metadata.pkl" with
    | Some full_path =>
        exists items, joblib_load env full_path = Ok (PyData (VDict items))
    | None => exists n, obj_len o_features = Ok n
    end.

(** [d.get(key, default)] on the items of a dict. *)
Definition get_or (items : list (string * value)) (key : string) (default : value) : value :=
  match dict_get items key with
  | Some v => v
  | None => default
  end.

(** A directory tree whose [models/] holds the classifier, the feature-name
    list and a metadata file with content [md]. *)
Definition env_with_metadata (md : value) : Env :=
  {| path_exists := fun p =>
       String.eqb p "models/modelo_fraude.pkl"
       || String.eqb p "models/feature_names.pkl"
       || String.eqb p "models/modelo_metadata.pkl";
     joblib_load := fun p =>
       if String.eqb p "models/modelo_fraude.pkl"
       then Ok (PyClassifier (constant_classifier 0 0.1))
       else if String.eqb p "models/feature_names.pkl"
       then Ok (PyData default_feature_names)
       else if String.eqb p "models/modelo_metadata.pkl"
       then Ok (PyData md)
       else Raise (mkExn FileNotFoundError p);
     StandardScaler_fit := fun _ => Ok identity_scaler;
     CORS_AVAILABLE := false |}.


(** A fitted scaler that behaves as scikit-learn documents its
    [StandardScaler]: [transform] first validates the array, letting NaN
    through and refusing an infinite entry with [ValueError], then maps each
    entry [x] to [(x - mean) / scale]. *)
Definition standard_scaler (mean scale : float) : Scaler :=
  {| scaler_transform := fun rows =>
       if existsb (existsb is_infinity) rows
       then Raise (mkExn ValueError "Input X contains infinity")
       else Ok (map (map (fun x => ((x - mean) / scale)%float)) rows) |}.

(** A loaded manager whose scaler is of that kind. *)
Definition manager_standard_scaler : ModelManager :=
  mkManager (PyClassifier (constant_classifier 0 0.1))
            (PyScaler (standard_scaler 445.774 840.0))
            (PyData default_feature_names)
            (PyData (default_metadata 29)) true.

(** * Properties *)

(** Case analysis on the innermost scrutinee of a run of the monad. *)
Ltac destruct_scrutinee_in H :=
  match type of H with
  | context [match ?x with _ => _ end] =>
      lazymatch x with
      | context [match _ with _ => _ end] => fail
      | _ => destruct x eqn:?
      end
  end.

Ltac run_in H :=
  repeat (destruct_scrutinee_in H; cbn in H; try discriminate H).

(** ** Comparison of doubles *)

Lemma SFcompare_antisym (x y : spec_float) :
  SFcompare y x = option_map CompOpp (SFcompare x y).
Proof.
  destruct x as [sx|sx| |sx mx ex], y as [sy|sy| |sy my ey]; simpl;
    try reflexivity;
    try (destruct sx; reflexivity);
    try (destruct sy; reflexivity);
    try (destruct sx, sy; reflexivity).
  destruct sx, sy; try reflexivity;
    rewrite (Z.compare_antisym ex ey); destruct (ex ?= ey)%Z; simpl;
    try reflexivity;
    rewrite !Pos.compare_cont_spec; simpl;
    rewrite (Pos.compare_antisym mx my);
    destruct (mx ?= my)%positive; reflexivity.
Qed.

(** [x < y] excludes [y <= x]. *)
Lemma ltb_excludes_leb (x y : float) :
  (x <? y)%float = true -> (y <=? x)%float = false.
Proof.
  rewrite ltb_spec, leb_spec. unfold SFltb, SFleb.
  rewrite (SFcompare_antisym (Prim2SF x) (Prim2SF y)).
  destruct (SFcompare (Prim2SF x) (Prim2SF y)) as [[]|]; simpl; congruence.
Qed.

(** [<=] is transitive through two positive finite doubles. *)
Lemma SFleb_trans_finite (m1 m2 : positive) (e1 e2 : Z) (P : spec_float) :
  SFleb (S754_finite false m1 e1) (S754_finite false m2 e2) = true ->
  SFleb (S754_finite false m2 e2) P = true ->
  SFleb (S754_finite false m1 e1) P = true.
Proof.
  unfold SFleb, SFcompare.
  destruct P as [s|s| |s m e]; try destruct s; simpl; try congruence.
  rewrite !Pos.compare_cont_spec; simpl.
  destruct (Z.compare_spec e1 e2), (Z.compare_spec e2 e), (Z.compare_spec e1 e);
    destruct (Pos.compare_spec m1 m2), (Pos.compare_spec m2 m), (Pos.compare_spec m1 m);
    simpl; try congruence; lia.
Qed.

Lemma leb_trans_finite (a b p : float) (ma mb : positive) (ea eb : Z) :
  Prim2SF a = S754_finite false ma ea ->
  Prim2SF b = S754_finite false mb eb ->
  (a <=? b)%float = true -> (b <=? p)%float = true -> (a <=? p)%float = true.
Proof.
  rewrite !leb_spec. intros -> ->. apply SFleb_trans_finite.
Qed.

(** The thresholds of the risk tier are nested. *)
Lemma leb_08_06 (p : float) : (0.8 <=? p)%float = true -> (0.6 <=? p)%float = true.
Proof. eapply leb_trans_finite; vm_compute; reflexivity. Qed.

Lemma leb_06_04 (p : float) : (0.6 <=? p)%float = true -> (0.4 <=? p)%float = true.
Proof. eapply leb_trans_finite; vm_compute; reflexivity. Qed.

Lemma leb_04_02 (p : float) : (0.4 <=? p)%float = true -> (0.2 <=? p)%float = true.
Proof. eapply leb_trans_finite; vm_compute; reflexivity. Qed.

Lemma not_leb_06_08 (p : float) : (0.6 <=? p)%float = false -> (0.8 <=? p)%float = false.
Proof.
  intros H. destruct (0.8 <=? p)%float eqn:E; [|reflexivity].
  apply leb_08_06 in E. congruence.
Qed.

Lemma not_leb_04_06 (p : float) : (0.4 <=? p)%float = false -> (0.6 <=? p)%float = false.
Proof.
  intros H. destruct (0.6 <=? p)%float eqn:E; [|reflexivity].
  apply leb_06_04 in E. congruence.
Qed.

Lemma not_leb_02_04 (p : float) : (0.2 <=? p)%float = false -> (0.4 <=? p)%float = false.
Proof.
  intros H. destruct (0.4 <=? p)%float eqn:E; [|reflexivity].
  apply leb_04_02 in E. congruence.
Qed.

(** ** The risk tier *)

(** C4. The risk tier follows the closed-open bins on the fraud probability
    [p], highest first: [p >= 0.8] gives MUITO_ALTO, [0.6 <= p < 0.8] ALTO,
    [0.4 <= p < 0.6] MEDIO, [0.2 <= p < 0.4] BAIXO and [p < 0.2] MUITO_BAIXO;
    the four thresholds themselves fall in the upper bin; and this tier is the
    [nivel_risco] field of every prediction response. *)
Theorem risk_level_bins (p : float) :
  ((0.8 <=? p)%float = true -> risk_level p = "MUITO_ALTO") /\
  ((0.6 <=? p)%float = true -> (p <? 0.8)%float = true -> risk_level p = "ALTO") /\
  ((0.4 <=? p)%float = true -> (p <? 0.6)%float = true -> risk_level p = "MEDIO") /\
  ((0.2 <=? p)%float = true -> (p <? 0.4)%float = true -> risk_level p = "BAIXO") /\
  ((p <? 0.2)%float = true -> risk_level p = "MUITO_BAIXO") /\
  risk_level 0.8 = "MUITO_ALTO" /\
  risk_level 0.6 = "ALTO" /\
  risk_level 0.4 = "MEDIO" /\
  risk_level 0.2 = "BAIXO" /\
  (forall rt clock resultado prob_normal modelo_tipo,
      json_path (prediction_response rt clock resultado p prob_normal modelo_tipo)
                ["resultado"; "nivel_risco"]
      = Some (VStr (risk_level p))).
Proof.
  unfold risk_level.
  repeat split; try reflexivity.
  - intros H. now rewrite H.
  - intros H6 H8. apply ltb_excludes_leb in H8. now rewrite H8, H6.
  - intros H4 H6. apply ltb_excludes_leb in H6.
    now rewrite (not_leb_06_08 p H6), H6, H4.
  - intros H2 H4. apply ltb_excludes_leb in H4.
    pose proof (not_leb_04_06 p H4) as H6.
    now rewrite (not_leb_06_08 p H6), H6, H4, H2.
  - intros H2. apply ltb_excludes_leb in H2.
    pose proof (not_leb_02_04 p H2) as H4.
    pose proof (not_leb_04_06 p H4) as H6.
    now rewrite (not_leb_06_08 p H6), H6, H4, H2.
Qed.

(** The bins at a sample probability of each tier. *)
Lemma risk_level_bins_witness :
  risk_level 0.93 = "MUITO_ALTO" /\ risk_level 0.7 = "ALTO" /\
  risk_level 0.5 = "MEDIO" /\ risk_level 0.25 = "BAIXO" /\
  risk_level 0.01 = "MUITO_BAIXO".
Proof.
  split; [exact (proj1 (risk_level_bins 0.93) eq_refl)|].
  split; [exact (proj1 (proj2 (risk_level_bins 0.7)) eq_refl eq_refl)|].
  split; [exact (proj1 (proj2 (proj2 (risk_level_bins 0.5))) eq_refl eq_refl)|].
  split; [exact (proj1 (proj2 (proj2 (proj2 (risk_level_bins 0.25)))) eq_refl eq_refl)|].
  exact (proj1 (proj2 (proj2 (proj2 (proj2 (risk_level_bins 0.01))))) eq_refl).
Defined.

(** ** Loading the artifacts *)

(** When the [try] block of [load_models] completes, it returns [True] and
    leaves [model_loaded] set. *)
Lemma load_models_try_ok (env : Env) (w w' : World) (b : bool) :
  load_models_try env w = (Ok b, w') ->
  b = true /\ model_loaded (model_manager w') = true.
Proof.
  unfold load_models_try.
  remember (locate_models env model_files []) as located eqn:Hloc.
  intros H. cbn in H.
  run_in H.
  all: injection H as <- <-; split; reflexivity.
Qed.

(** C9. [load_models] never lets an exception reach its caller: whatever the
    file system holds and whatever loading an artifact raises, it returns a
    boolean, [True] with [model_loaded] set or [False] with [model_loaded]
    cleared. *)
Theorem load_models_never_raises (env : Env) (w : World) :
  exists (b : bool) (w' : World),
    load_models env w = (Ok b, w') /\ model_loaded (model_manager w') = b.
Proof.
  unfold load_models, try_except.
  destruct (load_models_try env w) as [[b|e] w1] eqn:E.
  - apply load_models_try_ok in E as [-> Hloaded]. eauto.
  - cbn. eauto.
Qed.

(** A file absent from every candidate directory is not located. *)
Lemma find_in_base_paths_absent (env : Env) (filename : string) :
  (forall base_path, In base_path base_paths ->
     path_exists env (os_path_join base_path filename) = false) ->
  find_in_base_paths env filename = None.
Proof.
  intros H. unfold find_in_base_paths.
  assert (G : forall bases, incl bases base_paths ->
            find (path_exists env)
                 (map (fun base_path => os_path_join base_path filename) bases) = None).
  { induction bases as [|b bases IH]; intros Hincl; [reflexivity|].
    simpl. rewrite (H b) by (apply Hincl; left; reflexivity).
    apply IH. intros x Hx. apply Hincl. right. exact Hx. }
  apply G. apply incl_refl.
Qed.

(** Without the classifier file the [try] block raises before it assigns
    anything. *)
Lemma load_models_try_without_classifier (env : Env) (w : World) :
  find_in_base_paths env "modelo_fraude.pkl" = None ->
  exists e, load_models_try env w = (Raise e, w) /\ exn_class e = FileNotFoundError.
Proof.
  intros H. unfold load_models_try. cbn -[find_in_base_paths]. rewrite H. cbn. eauto.
Qed.

(** Without the feature-name file the [try] block raises too: the lookup loop
    excuses only [scaler] and [metadata]. *)
Lemma load_models_try_without_feature_names (env : Env) (w : World) :
  find_in_base_paths env "feature_names.pkl" = None ->
  exists e, load_models_try env w = (Raise e, w) /\ exn_class e = FileNotFoundError.
Proof.
  intros H. unfold load_models_try. cbn -[find_in_base_paths]. rewrite H.
  destruct (find_in_base_paths env "modelo_fraude.pkl");
    destruct (find_in_base_paths env "scaler_amount.pkl"); cbn; eauto.
Qed.

(** A manager that is not loaded answers every prediction request with the
    unavailable response, and nothing else happens. *)
Lemma predict_not_loaded (rt : Runtime) (clock : Clock) (request : Request) (w : World) :
  model_loaded (model_manager w) = false ->
  predict rt clock request w = (Ok (unavailable clock), w).
Proof.
  intros H. unfold predict, try_except, predict_try. cbn. rewrite H. reflexivity.
Qed.

Lemma serve_predict_not_loaded (rt : Runtime) (requests : list (Clock * Request)) (w : World) :
  model_loaded (model_manager w) = false ->
  serve_predict rt requests w
  = (map (fun cr => Ok (unavailable (fst cr))) requests, w).
Proof.
  intros H. induction requests as [|[clock request] rest IH]; [reflexivity|].
  simpl. rewrite (predict_not_loaded rt clock request w H), IH. reflexivity.
Qed.

(** C8. When the classifier file is in none of the candidate directories,
    [load_models] returns [False] and leaves [model_loaded] false (nothing
    else of the manager changes); every prediction request served afterwards
    gets the model-unavailable response with status 503, and the log of calls
    to the validator, the preprocessor and the classifier does not grow; the
    test routes answer 503 in the same way. *)
Theorem missing_classifier_unavailable
  (env : Env) (rt : Runtime) (w : World) (requests : list (Clock * Request)) :
  (forall base_path, In base_path base_paths ->
     path_exists env (os_path_join base_path "modelo_fraude.pkl") = false) ->
  let w1 := mkWorld (set_model_loaded false (model_manager w)) (calls w) in
  load_models env w = (Ok false, w1) /\
  model_loaded (model_manager w1) = false /\
  serve_predict rt requests w1
  = (map (fun cr => Ok (unavailable (fst cr))) requests, w1) /\
  (forall clock dados_teste descricao,
      exists body, _execute_test rt clock dados_teste descricao w1 = (Ok (body, 503), w1)).
Proof.
  intros H w1.
  apply find_in_base_paths_absent in H.
  destruct (load_models_try_without_classifier env w H) as [e [He _]].
  repeat split.
  - unfold load_models, try_except. rewrite He. reflexivity.
  - apply serve_predict_not_loaded. reflexivity.
  - intros clock dados_teste descricao. eexists.
    unfold _execute_test, try_except. cbn. reflexivity.
Qed.

(** With an empty directory tree and a freshly constructed manager. *)
Lemma missing_classifier_unavailable_witness :
  load_models env_empty initial_world = (Ok false, initial_world) /\
  serve_predict sample_runtime
    [(sample_clock, {| get_json := Ok (VDict (payload (VFloat 0) (VFloat 1))) |})]
    initial_world
  = ([Ok (unavailable sample_clock)], initial_world).
Proof.
  pose proof (missing_classifier_unavailable env_empty sample_runtime initial_world
    [(sample_clock, {| get_json := Ok (VDict (payload (VFloat 0) (VFloat 1))) |})]
    (fun _ _ => eq_refl)) as H.
  split; [exact (proj1 H) | exact (proj1 (proj2 (proj2 H)))].
Defined.

(** C1, on the code. Whenever the feature-name file is in no candidate
    directory (the classifier file may well be present), [load_models]
    returns [False] and leaves the manager unloaded with its other fields
    untouched: the lookup loop raises [FileNotFoundError] for [features], so
    the later branch that would build the default list
    [V1..V28, Amount_Norm] is never reached; the next prediction request is
    answered 503. *)
Theorem load_models_without_feature_list (env : Env) (w : World) :
  (forall base_path, In base_path base_paths ->
     path_exists env (os_path_join base_path "feature_names.pkl") = false) ->
  let w1 := mkWorld (set_model_loaded false (model_manager w)) (calls w) in
  load_models env w = (Ok false, w1) /\
  feature_names (model_manager w1) = feature_names (model_manager w) /\
  (forall rt clock request,
      predict rt clock request w1 = (Ok (unavailable clock), w1)).
Proof.
  intros H w1.
  apply find_in_base_paths_absent in H.
  destruct (load_models_try_without_feature_names env w H) as [e [He _]].
  split; [|split].
  - unfold load_models, try_except. rewrite He. reflexivity.
  - reflexivity.
  - intros rt clock request. apply predict_not_loaded. reflexivity.
Qed.

(** At a directory tree that holds the classifier file only, from a freshly
    constructed manager. *)
Lemma load_models_without_feature_list_witness :
  find_in_base_paths env_classifier_only "modelo_fraude.pkl"
  = Some "models/modelo_fraude.pkl" /\
  load_models env_classifier_only initial_world = (Ok false, initial_world) /\
  feature_names (model_manager initial_world) = PyData VNone.
Proof.
  split; [reflexivity|].
  assert (Habsent : forall base_path, In base_path base_paths ->
            path_exists env_classifier_only (os_path_join base_path "feature_names.pkl")
            = false).
  { intros base_path Hin. simpl in Hin.
    destruct Hin as [<- | [<- | [<- | []]]]; reflexivity. }
  pose proof (load_models_without_feature_list env_classifier_only initial_world Habsent)
    as H.
  split; [exact (proj1 H) | reflexivity].
Defined.

(** What the unreached branch would have given: with the feature-name file
    present, the same tree loads. *)
Lemma load_models_with_feature_list :
  exists w', load_models env_classifier_features initial_world = (Ok true, w') /\
             feature_names (model_manager w') = PyData default_feature_names.
Proof. eexists. split; vm_compute; reflexivity. Qed.

(** ** The health check *)

(** X5. [health_check] never raises: whatever the manager holds, it returns a
    response, and the manager is as before. *)
Lemma health_check_answers (env : Env) (clock : Clock) (w : World) :
  exists (response : Response) (w' : World),
    health_check env clock w = (Ok response, w') /\
    model_manager w' = model_manager w.
Proof.
  unfold health_check, try_except. cbn.
  destruct (model_loaded (model_manager w)); cbn; [|eauto].
  destruct (obj_len (feature_names (model_manager w))) as [n|e]; cbn; [|eauto].
  destruct (obj_predict (modelo (model_manager w)) [repeat 0%float n]); cbn; eauto.
Qed.

(** C3, as the code has it. On a loaded manager whose smoke prediction
    raises, [health_check] does not raise: it answers with status 500, model
    status [error] and overall status [error] (not [degraded]), and the
    manager, [model_loaded] included, is as before. *)
Theorem health_check_smoke_failure (env : Env) (clock : Clock) (w : World) (e : Exception) :
  model_loaded (model_manager w) = true ->
  smoke_prediction (model_manager w) = Raise e ->
  exists (body : value) (w' : World),
    health_check env clock w = (Ok (body, 500), w') /\
    json_path body ["model_status"] = Some (VStr "error") /\
    json_path body ["api_status"] = Some (VStr "error") /\
    json_path body ["error"] = Some (VStr (exn_str e)) /\
    model_manager w' = model_manager w /\
    model_loaded (model_manager w') = true.
Proof.
  intros Hloaded Hsmoke.
  unfold health_check, try_except. cbn. rewrite Hloaded. cbn.
  unfold smoke_prediction in Hsmoke. cbn in Hsmoke.
  destruct (obj_len (feature_names (model_manager w))) as [n|e0]; cbn in *.
  - rewrite Hsmoke. cbn. do 2 eexists. repeat split. exact Hloaded.
  - injection Hsmoke as ->. do 2 eexists. repeat split. exact Hloaded.
Qed.

Lemma health_check_smoke_failure_witness :
  exists (body : value) (w' : World),
    health_check env_empty sample_clock (mkWorld (ready_manager failing_classifier) [])
    = (Ok (body, 500), w') /\
    json_path body ["api_status"] = Some (VStr "error").
Proof.
  destruct (health_check_smoke_failure env_empty sample_clock
              (mkWorld (ready_manager failing_classifier) [])
              (mkExn ValueError "Feature shape mismatch") eq_refl eq_refl)
    as [body [w' [H1 [_ [H2 _]]]]].
  exists body, w'. split; assumption.
Defined.

(** C3 as stated fails: on a loaded manager whose classifier raises on the
    all-zero vector, the overall status is [error], not [degraded]. *)
Lemma health_check_smoke_failure_not_degraded :
  model_loaded (ready_manager failing_classifier) = true /\
  smoke_prediction (ready_manager failing_classifier)
  = Raise (mkExn ValueError "Feature shape mismatch") /\
  exists (body : value) (w' : World),
    health_check env_empty sample_clock (mkWorld (ready_manager failing_classifier) [])
    = (Ok (body, 500), w') /\
    json_path body ["api_status"] = Some (VStr "error") /\
    json_path body ["api_status"] <> Some (VStr "degraded").
Proof.
  split; [reflexivity|]. split; [vm_compute; reflexivity|].
  do 2 eexists. split; [vm_compute; reflexivity|].
  split; [reflexivity|]. cbn. discriminate.
Qed.

(** X4. On a manager that is not loaded, [health_check] answers with code
    503, model status [error] and overall status [degraded], and changes
    nothing. *)
Lemma health_check_not_loaded (env : Env) (clock : Clock) (w : World) :
  model_loaded (model_manager w) = false ->
  exists body, health_check env clock w = (Ok (body, 503), w) /\
    json_path body ["model_status"] = Some (VStr "error") /\
    json_path body ["api_status"] = Some (VStr "degraded").
Proof.
  intros H. unfold health_check, try_except. cbn. rewrite H. cbn.
  destruct w; eexists; repeat split.
Qed.

Lemma health_check_not_loaded_witness :
  exists body,
    health_check env_empty sample_clock initial_world = (Ok (body, 503), initial_world) /\
    json_path body ["api_status"] = Some (VStr "degraded").
Proof.
  destruct (health_check_not_loaded env_empty sample_clock initial_world eq_refl)
    as (body & H1 & _ & H2).
  exists body. split; assumption.
Defined.

(** ** The prediction route *)

#[local] Arguments validate_input : simpl never.
#[local] Arguments preprocess_data : simpl never.
#[local] Arguments obj_predict : simpl never.
#[local] Arguments obj_predict_proba : simpl never.
#[local] Arguments obj_get : simpl never.
#[local] Arguments py_index : simpl never.
#[local] Arguments py_truth : simpl never.
#[local] Arguments prediction_response : simpl never.
#[local] Arguments error_response : simpl never.

(** What a response with status 200 from [predict] tells: the request went
    through validation, preprocessing and the classifier, and the body is the
    prediction response built from the classifier's answers. *)
Lemma predict_200_inv (rt : Runtime) (clock : Clock) (request : Request)
  (w w' : World) (body : value) :
  predict rt clock request w = (Ok (body, 200), w') ->
  exists dados msg entrada labels resultado probas probabilidades
         prob_fraude prob_normal modelo_tipo,
    model_loaded (model_manager w) = true /\
    get_json request = Ok dados /\
    validate_input rt dados = Ok (true, msg) /\
    preprocess_data rt (model_manager w) dados = Ok entrada /\
    obj_predict (modelo (model_manager w)) entrada = Ok labels /\
    py_index labels 0 = Ok resultado /\
    obj_predict_proba (modelo (model_manager w)) entrada = Ok probas /\
    py_index probas 0 = Ok probabilidades /\
    py_index probabilidades 1 = Ok prob_fraude /\
    py_index probabilidades 0 = Ok prob_normal /\
    body = prediction_response rt clock resultado prob_fraude prob_normal modelo_tipo.
Proof.
  unfold predict, try_except.
  destruct (predict_try rt clock request w) as [[response|e] w1] eqn:E.
  - intros H. injection H as -> ->.
    unfold predict_try in E. cbn in E.
    run_in E.
    all: try (injection E as E1 E2; discriminate E1).
    injection E as <- <-.
    repeat eexists; try eassumption.
    + destruct (model_loaded (model_manager w)); [reflexivity | discriminate].
    + destruct b; [eassumption | discriminate].
  - destruct (exn_class e); cbn; intros H; discriminate H.
Qed.

(** C7. Whenever [predict] answers a scored request (status 200), the
    recommended action is BLOQUEAR exactly when the classifier's label is 1
    and APROVAR otherwise; the action of a prediction response depends on the
    label only, not on the probabilities; and action and risk tier can
    disagree: a classifier answering label 0 with fraud probability 0.85
    yields tier MUITO_ALTO with action APROVAR. *)
Theorem predict_action_from_label :
  (forall rt clock request w w' body,
      predict rt clock request w = (Ok (body, 200), w') ->
      exists dados entrada labels resultado,
        get_json request = Ok dados /\
        preprocess_data rt (model_manager w) dados = Ok entrada /\
        obj_predict (modelo (model_manager w)) entrada = Ok labels /\
        nth_error labels 0 = Some resultado /\
        json_path body ["recomendacao"; "acao"]
        = Some (VStr (if resultado =? 1 then "BLOQUEAR" else "APROVAR")) /\
        (json_path body ["recomendacao"; "acao"] = Some (VStr "BLOQUEAR")
         <-> resultado = 1)) /\
  (forall rt clock resultado p p' n n' tipo tipo',
      json_path (prediction_response rt clock resultado p n tipo) ["recomendacao"; "acao"]
      = json_path (prediction_response rt clock resultado p' n' tipo')
                  ["recomendacao"; "acao"]) /\
  (let w := mkWorld (ready_manager (constant_classifier 0 0.85)) [] in
   let request := {| get_json := Ok (VDict (payload (VFloat 0) (VFloat 10))) |} in
   exists body w',
     predict sample_runtime sample_clock request w = (Ok (body, 200), w') /\
     json_path body ["resultado"; "nivel_risco"] = Some (VStr "MUITO_ALTO") /\
     json_path body ["recomendacao"; "acao"] = Some (VStr "APROVAR")).
Proof.
  split; [|split].
  - intros rt clock request w w' body H.
    apply predict_200_inv in H.
    destruct H as (dados & msg & entrada & labels & resultado & probas & probabilidades
                   & prob_fraude & prob_normal & modelo_tipo
                   & _ & Hjson & _ & Hpre & Hpred & Hlabel & _ & _ & _ & _ & ->).
    exists dados, entrada, labels, resultado.
    repeat (split; [eassumption|]).
    assert (Hnth : nth_error labels 0 = Some resultado).
    { unfold py_index in Hlabel. destruct (nth_error labels 0); congruence. }
    split; [exact Hnth|].
    split; [reflexivity|].
    unfold prediction_response. cbn.
    destruct (Z.eqb_spec resultado 1) as [->|Hne]; split; intros H;
      try reflexivity; try discriminate H; contradiction.
  - reflexivity.
  - do 2 eexists. split; [vm_compute; reflexivity|]. split; reflexivity.
Qed.

(** A scored request, through the first part of the statement. *)
Lemma predict_action_from_label_witness :
  exists (body : value) (w' : World),
    predict sample_runtime sample_clock
      {| get_json := Ok (VDict (payload (VFloat 0) (VFloat 10))) |}
      (mkWorld (ready_manager (constant_classifier 1 0.85)) [])
    = (Ok (body, 200), w') /\
    json_path body ["recomendacao"; "acao"] = Some (VStr "BLOQUEAR").
Proof.
  eexists. eexists.
  assert (H : predict sample_runtime sample_clock
                {| get_json := Ok (VDict (payload (VFloat 0) (VFloat 10))) |}
                (mkWorld (ready_manager (constant_classifier 1 0.85)) [])
              = _) by (vm_compute; reflexivity).
  split; [exact H|].
  destruct (proj1 predict_action_from_label _ _ _ _ _ _ H)
    as (dados & entrada & labels & resultado & _ & _ & Hpred & Hnth & _ & Hiff).
  apply Hiff.
  vm_compute in Hpred. injection Hpred as <-.
  cbn in Hnth. injection Hnth as <-. reflexivity.
Defined.

(** ** Validation *)

Lemma mapM_Forall2 {A B : Type} (f : A -> result B) (xs : list A) (ys : list B) :
  mapM f xs = Ok ys -> Forall2 (fun x y => f x = Ok y) xs ys.
Proof.
  revert ys. induction xs as [|x xs IH]; intros ys H; simpl in H.
  - injection H as <-. constructor.
  - destruct (f x) as [y|e] eqn:Hx; [|discriminate].
    destruct (mapM f xs) as [ys'|e]; [|discriminate].
    injection H as <-. constructor; auto.
Qed.

Lemma mapM_map {A B C : Type} (g : A -> B) (f : B -> result C) (xs : list A) :
  mapM f (map g xs) = mapM (fun x => f (g x)) xs.
Proof.
  induction xs as [|x xs IH]; simpl; [reflexivity|].
  destruct (f (g x)); [|reflexivity]. now rewrite IH.
Qed.

Lemma mapM_ok {A B : Type} (f : A -> result B) (xs : list A) :
  Forall (fun x => exists y, f x = Ok y) xs -> exists ys, mapM f xs = Ok ys.
Proof.
  induction 1 as [|x xs [y Hy] _ [ys IH]]; simpl; [eauto|].
  rewrite Hy, IH. eauto.
Qed.

(** On a mapping, the missing fields are the required keys it does not hold,
    in the order of [required_fields]. *)
Lemma missing_fields_dict (items : list (string * value)) (fields : list string) :
  missing_fields (VDict items) fields
  = Ok (filter (fun field => match dict_get items field with
                             | Some _ => false
                             | None => true
                             end) fields).
Proof.
  induction fields as [|field rest IH]; simpl; [reflexivity|].
  rewrite IH. simpl. destruct (dict_get items field); reflexivity.
Qed.

Lemma missing_fields_none (P : value -> Prop) (items : list (string * value)) :
  all_required P items -> missing_fields (VDict items) required_fields = Ok [].
Proof.
  intros H. rewrite missing_fields_dict. f_equal.
  unfold all_required in H. revert H.
  generalize required_fields as fields.
  induction fields as [|field rest IH]; intros H; simpl; [reflexivity|].
  destruct (H field (or_introl eq_refl)) as [v [-> _]].
  apply IH. intros f Hf. apply H. right. exact Hf.
Qed.

(** The type check passes exactly when [float(dados[field])] returns for
    every field. *)
Lemma check_types_pass (rt : Runtime) (dados : value) (fields : list string) :
  Forall (fun field => exists x, float_item rt dados field = Ok x) fields ->
  check_types rt dados fields = Ok None.
Proof.
  induction 1 as [|field rest [x Hx] _ IH]; simpl; [reflexivity|].
  now rewrite Hx.
Qed.

Lemma check_types_pass_inv (rt : Runtime) (dados : value) (fields : list string) :
  check_types rt dados fields = Ok None ->
  Forall (fun field => exists x, float_item rt dados field = Ok x) fields.
Proof.
  induction fields as [|field rest IH]; simpl; intros H; [constructor|].
  destruct (float_item rt dados field) as [x|e] eqn:Hx.
  - constructor; eauto.
  - destruct (exn_class e); discriminate H.
Qed.

(** An early return of the type check is a failure. *)
Lemma check_types_early_return (rt : Runtime) (dados : value) (fields : list string)
  (r : bool * string) :
  check_types rt dados fields = Ok (Some r) -> fst r = false.
Proof.
  induction fields as [|field rest IH]; simpl; intros H; [discriminate|].
  destruct (float_item rt dados field) as [x|e]; [auto|].
  destruct (exn_class e); try discriminate H; injection H as <-; reflexivity.
Qed.

(** What a successful validation tells. *)
Lemma validate_input_ok_inv (rt : Runtime) (dados : value) (msg : string) :
  validate_input rt dados = Ok (true, msg) ->
  Forall (fun field => exists x, float_item rt dados field = Ok x) required_fields /\
  exists amount, py_getitem dados "Amount" = Ok amount /\ py_lt_zero amount = Ok false.
Proof.
  unfold validate_input. cbn [bind ret Monad_result].
  destruct (missing_fields dados required_fields) as [[|m ms]|e]; try discriminate.
  destruct (check_types rt dados required_fields) as [[r|]|e] eqn:Hct; try discriminate.
  - intros H. injection H as ->. apply check_types_early_return in Hct. discriminate.
  - apply check_types_pass_inv in Hct.
    destruct (py_getitem dados "Amount") as [amount|e]; [|discriminate].
    destruct (py_lt_zero amount) as [[|]|e] eqn:Hlt; try discriminate.
    intros _. split; [exact Hct|]. exists amount. split; [reflexivity | exact Hlt].
Qed.

(** ** Preprocessing *)

(** C6, as the code has it. For a payload that [validate_input] accepts,
    [float(dados[name])] returns a value for each of [V1..V28], in that
    order, and for [Amount]. When the manager's scaler object [sc] answers
    [sc.transform([[float(Amount)]])] with an array whose entry [[0][0]] is
    [s], [preprocess_data] returns one row of exactly 29 numbers: the 28
    coerced [V] values first, in ascending order of their suffix, and [s]
    last. When that call raises, [preprocess_data] raises the same
    exception and produces no vector. *)
Theorem preprocess_data_layout (rt : Runtime) (self : ModelManager) (dados : value)
  (msg : string) :
  validate_input rt dados = Ok (true, msg) ->
  exists (vs : list float) (a : float),
    Forall2 (fun name v => float_item rt dados name = Ok v) V_names vs /\
    float_item rt dados "Amount" = Ok a /\
    (forall sc transformed first_row s,
       scaler self = PyScaler sc ->
       scaler_transform sc [[a]] = Ok transformed ->
       nth_error transformed 0 = Some first_row ->
       nth_error first_row 0 = Some s ->
       exists row,
         preprocess_data rt self dados = Ok [row] /\
         List.length row = 29%nat /\
         firstn 28 row = vs /\
         nth_error row 28 = Some s) /\
    (forall sc e,
       scaler self = PyScaler sc ->
       scaler_transform sc [[a]] = Raise e ->
       preprocess_data rt self dados = Raise e).
Proof.
  intros Hvalid. apply validate_input_ok_inv in Hvalid as [Hall _].
  unfold required_fields in Hall. apply Forall_app in Hall as [HV HA].
  destruct (mapM_ok _ _ HV) as [vs Hvs].
  inversion HA as [|? ? [a Ha] _]; subst.
  exists vs, a.
  pose proof (mapM_Forall2 _ _ _ Hvs) as HF.
  pose proof (Forall2_length HF) as Hlen.
  change (List.length V_names) with 28%nat in Hlen.
  unfold V_names in Hvs. rewrite mapM_map in Hvs.
  split; [exact HF|]. split; [exact Ha|]. split.
  - intros sc transformed first_row s Hsc Ht Hrow Hs. exists (vs ++ [s])%list.
    unfold preprocess_data, py_index. cbn [bind ret Monad_result].
    rewrite Hvs, Hsc. cbn [obj_transform]. rewrite Ha, Ht, Hrow, Hs.
    split; [reflexivity|]. split; [|split].
    + rewrite length_app. simpl. lia.
    + rewrite Hlen, firstn_app, Nat.sub_diag, firstn_all. apply app_nil_r.
    + rewrite nth_error_app2 by lia. rewrite <- Hlen, Nat.sub_diag. reflexivity.
  - intros sc e Hsc He. unfold preprocess_data. cbn [bind ret Monad_result].
    rewrite Hvs, Hsc. cbn [obj_transform]. now rewrite Ha, He.
Qed.

Lemma preprocess_data_layout_witness :
  exists row,
    preprocess_data sample_runtime manager_standard_scaler
      (VDict (payload (VStr "1.5") (VInt 3))) = Ok [row] /\
    List.length row = 29%nat /\
    firstn 28 row = repeat 1.5%float 28 /\
    nth_error row 28 = Some ((3 - 445.774) / 840.0)%float.
Proof.
  destruct (preprocess_data_layout sample_runtime manager_standard_scaler
              (VDict (payload (VStr "1.5") (VInt 3))) "Dados válidos"
              ltac:(vm_compute; reflexivity))
    as (vs & a & HF & Ha & Hok & _).
  vm_compute in Ha. injection Ha as <-.
  destruct (Hok (standard_scaler 445.774 840.0)
                [[((3 - 445.774) / 840.0)%float]] [((3 - 445.774) / 840.0)%float]
                ((3 - 445.774) / 840.0)%float
                eq_refl ltac:(vm_compute; reflexivity) eq_refl eq_refl)
    as (row & H1 & H2 & H3 & H4).
  exists row. repeat split; try assumption.
  rewrite H3. clear -HF.
  let names := eval vm_compute in V_names in change V_names with names in HF.
  repeat match goal with
         | H : Forall2 _ (_ :: _) _ |- _ => inversion H; clear H; subst
         | H : Forall2 _ [] _ |- _ => inversion H; clear H; subst
         | H : float_item _ _ _ = Ok _ |- _ => vm_compute in H; injection H as <-
         end.
  reflexivity.
Defined.

(** C6 as stated fails: a payload with [Amount] = +Infinity is accepted by
    [validate_input] (the range check only asks that it is not below zero),
    and on a manager whose scaler refuses an infinite input, as
    scikit-learn's [StandardScaler] does, [preprocess_data] raises
    [ValueError] and produces no vector; [predict] then answers 500. *)
Lemma preprocess_data_infinite_amount :
  validate_input sample_runtime (VDict (payload (VFloat 0) (VFloat infinity)))
  = Ok (true, "Dados válidos") /\
  (exists e,
      preprocess_data sample_runtime manager_standard_scaler
        (VDict (payload (VFloat 0) (VFloat infinity))) = Raise e /\
      exn_class e = ValueError) /\
  (exists body w',
      predict sample_runtime sample_clock
        {| get_json := Ok (VDict (payload (VFloat 0) (VFloat infinity))) |}
        (mkWorld manager_standard_scaler [])
      = (Ok (body, 500), w') /\
      json_path body ["status"] = Some (VStr "INTERNAL_ERROR")) /\
  ~ (forall rt self dados msg,
        validate_input rt dados = Ok (true, msg) ->
        exists row, preprocess_data rt self dados = Ok [row] /\
                    List.length row = 29%nat).
Proof.
  assert (Hv : validate_input sample_runtime
                 (VDict (payload (VFloat 0) (VFloat infinity)))
               = Ok (true, "Dados válidos")) by (vm_compute; reflexivity).
  assert (Hp : preprocess_data sample_runtime manager_standard_scaler
                 (VDict (payload (VFloat 0) (VFloat infinity)))
               = Raise (mkExn ValueError "Input X contains infinity"))
    by (vm_compute; reflexivity).
  split; [exact Hv|]. split; [eexists; split; [exact Hp | reflexivity]|]. split.
  - do 2 eexists. split; [vm_compute; reflexivity | reflexivity].
  - intros H. destruct (H _ manager_standard_scaler _ _ Hv) as (row & Hrow & _).
    rewrite Hp in Hrow. discriminate Hrow.
Qed.

(** The sample payloads hold every required key. *)
Lemma payload_all_required (P : value -> Prop) (v amount : value) :
  P v -> P amount -> all_required P (payload v amount).
Proof.
  intros Hv Ha field Hin.
  unfold required_fields in Hin.
  let names := eval vm_compute in V_names in change V_names with names in Hin.
  simpl in Hin.
  repeat (destruct Hin as [<- | Hin]; [eexists; split; [vm_compute; reflexivity | assumption] |]).
  contradiction.
Qed.

(** ** The order of the checks of [validate_input] *)

(** X1. A mapping that lacks a required key is rejected with the message
    that lists the missing required keys, in the order of [required_fields],
    whatever the values under the keys it holds. *)
Lemma validate_input_missing_first (rt : Runtime) (items : list (string * value))
  (m : string) (ms : list string) :
  filter (fun field => match dict_get items field with
                       | Some _ => false
                       | None => true
                       end) required_fields = m :: ms ->
  validate_input rt (VDict items)
  = Ok (false, "Campos obrigatórios não encontrados: " ++ py_repr_list (m :: ms)).
Proof.
  intros H. unfold validate_input. rewrite missing_fields_dict, H. reflexivity.
Qed.

Lemma validate_input_missing_first_witness :
  validate_input sample_runtime
    (VDict (("V2", VStr "abc") :: ("Amount", VInt (-1))
            :: map (fun name => (name, VFloat 0)) (skipn 3 V_names)))
  = Ok (false, "Campos obrigatórios não encontrados: ['V1', 'V3']").
Proof.
  exact (validate_input_missing_first sample_runtime
           (("V2", VStr "abc") :: ("Amount", VInt (-1))
            :: map (fun name => (name, VFloat 0)) (skipn 3 V_names))
           "V1" ["V3"] eq_refl).
Defined.

Lemma check_types_first_failure (rt : Runtime) (dados : value)
  (before after : list string) (field : string) (e : Exception) :
  Forall (fun f => exists x, float_item rt dados f = Ok x) before ->
  float_item rt dados field = Raise e ->
  check_types rt dados (before ++ field :: after)
  = match exn_class e with
    | ValueError | TypeError =>
        Ok (Some (false, "Campo '" ++ field ++ "' deve ser um número válido"))
    | _ => Raise e
    end.
Proof.
  induction 1 as [|f rest [x Hx] _ IH]; intros He; simpl.
  - rewrite He. reflexivity.
  - rewrite Hx. apply IH. exact He.
Qed.

(** X2. With every required key present, the first required field on which
    [float] raises [ValueError] or [TypeError] is reported by name, before
    any look at the sign of [Amount]. *)
Lemma validate_input_type_before_range (rt : Runtime) (items : list (string * value))
  (before after : list string) (field : string) (e : Exception) :
  all_required (fun _ => True) items ->
  required_fields = (before ++ field :: after)%list ->
  Forall (fun f => exists x, float_item rt (VDict items) f = Ok x) before ->
  float_item rt (VDict items) field = Raise e ->
  exn_class e = ValueError \/ exn_class e = TypeError ->
  validate_input rt (VDict items)
  = Ok (false, "Campo '" ++ field ++ "' deve ser um número válido").
Proof.
  intros Hall Hsplit Hbefore He Hclass.
  unfold validate_input. rewrite (missing_fields_none _ _ Hall).
  cbn [bind ret Monad_result].
  rewrite Hsplit, (check_types_first_failure _ _ _ _ _ _ Hbefore He).
  destruct Hclass as [-> | ->]; reflexivity.
Qed.

Lemma all_required_cons (P : value -> Prop) (items : list (string * value))
  (k : string) (v : value) :
  P v -> all_required P items -> all_required P ((k, v) :: items).
Proof.
  intros Hv Hall field Hin. cbn [dict_get].
  destruct (String.eqb k field); [eauto | auto].
Qed.

Lemma validate_input_type_before_range_witness :
  validate_input sample_runtime
    (VDict (("V3", VStr "abc") :: payload (VFloat 0) (VInt (-1))))
  = Ok (false, "Campo 'V3' deve ser um número válido").
Proof.
  apply (validate_input_type_before_range sample_runtime
           (("V3", VStr "abc") :: payload (VFloat 0) (VInt (-1)))
           ["V1"; "V2"] (skipn 3 required_fields) "V3"
           (mkExn ValueError "could not convert string to float: 'abc'")).
  - apply all_required_cons; [exact I|]. apply payload_all_required; exact I.
  - reflexivity.
  - repeat constructor; exists 0%float; reflexivity.
  - reflexivity.
  - left. reflexivity.
Defined.

Lemma all_required_convertible (rt : Runtime) (items : list (string * value)) :
  all_required (convertible rt) items ->
  Forall (fun field => exists x, float_item rt (VDict items) field = Ok x) required_fields.
Proof.
  intros H. apply Forall_forall. intros field Hin.
  destruct (H field Hin) as (v & Hv & x & Hx).
  exists x. unfold float_item. cbn. now rewrite Hv.
Qed.

(** X3. With every required key present and every required value
    convertible, an [Amount] that is a number below zero is rejected with
    the amount message. *)
Lemma validate_input_negative_number (rt : Runtime) (items : list (string * value))
  (amount : value) :
  all_required (convertible rt) items ->
  dict_get items "Amount" = Some amount ->
  negative_number amount = true ->
  validate_input rt (VDict items) = Ok (false, "Amount deve ser maior ou igual a zero").
Proof.
  intros Hall Hamount Hneg.
  unfold validate_input. rewrite (missing_fields_none _ _ Hall).
  cbn [bind ret Monad_result].
  rewrite (check_types_pass _ _ _ (all_required_convertible _ _ Hall)).
  cbn. rewrite Hamount.
  destruct amount; try discriminate Hneg; cbn in *; now rewrite Hneg.
Qed.

Lemma validate_input_negative_number_witness :
  validate_input sample_runtime (VDict (payload (VStr "1.5") (VFloat (-0.01))))
  = Ok (false, "Amount deve ser maior ou igual a zero").
Proof.
  apply (validate_input_negative_number sample_runtime
           (payload (VStr "1.5") (VFloat (-0.01))) (VFloat (-0.01))).
  - apply payload_all_required; eexists; reflexivity.
  - reflexivity.
  - reflexivity.
Defined.

(** An exception raised by the validator, other than [KeyError], reaches the
    last [except] clause of [predict]: the answer is 500 INTERNAL_ERROR. *)
Lemma predict_validation_raises (rt : Runtime) (clock : Clock) (request : Request)
  (w : World) (dados : value) (e : Exception) :
  model_loaded (model_manager w) = true ->
  get_json request = Ok dados ->
  py_truth dados = true ->
  validate_input rt dados = Raise e ->
  exn_class e <> KeyError ->
  exists body w',
    predict rt clock request w = (Ok (body, 500), w') /\
    json_path body ["status"] = Some (VStr "INTERNAL_ERROR").
Proof.
  intros Hloaded Hjson Htruth Hraise Hclass.
  unfold predict, try_except, predict_try. cbn.
  rewrite Hloaded. cbn. rewrite Hjson. cbn. rewrite Htruth. cbn. rewrite Hraise. cbn.
  destruct (exn_class e); try contradiction; do 2 eexists; split; reflexivity.
Qed.

(** ** Values the range check and the type check do not handle *)

(** C2, on the code. With every required key present and every value
    convertible, an [Amount] given as a numeric string makes [validate_input]
    raise [TypeError] at [dados['Amount'] < 0] instead of returning the amount
    failure; [predict] then answers 500 INTERNAL_ERROR, not 400. A negative
    [Amount] given as a number is rejected with the amount message
    ([validate_input_negative_number]). *)
Theorem validate_input_string_amount_raises (rt : Runtime) (s : string) (x : float) :
  float_of_str rt s = Some x ->
  all_required (convertible rt) (payload (VFloat 0) (VStr s)) /\
  (exists e, validate_input rt (VDict (payload (VFloat 0) (VStr s))) = Raise e /\
             exn_class e = TypeError) /\
  (forall clock c,
      exists body w',
        predict rt clock {| get_json := Ok (VDict (payload (VFloat 0) (VStr s))) |}
                (mkWorld (ready_manager c) [])
        = (Ok (body, 500), w') /\
        json_path body ["status"] = Some (VStr "INTERNAL_ERROR")).
Proof.
  intros Hs.
  assert (Hall : all_required (convertible rt) (payload (VFloat 0) (VStr s))).
  { apply payload_all_required; [exists 0%float; reflexivity |].
    exists x. cbn. now rewrite Hs. }
  assert (Hraise : validate_input rt (VDict (payload (VFloat 0) (VStr s)))
                   = Raise (mkExn TypeError
                              "'<' not supported between instances of 'str' and 'int'")).
  { unfold validate_input. rewrite (missing_fields_none _ _ Hall).
    cbn [bind ret Monad_result].
    rewrite (check_types_pass _ _ _ (all_required_convertible _ _ Hall)).
    vm_compute. reflexivity. }
  split; [exact Hall|]. split; [eauto|].
  intros clock c.
  apply (predict_validation_raises rt clock
           {| get_json := Ok (VDict (payload (VFloat 0) (VStr s))) |}
           (mkWorld (ready_manager c) []) (VDict (payload (VFloat 0) (VStr s))) _
           eq_refl eq_refl eq_refl Hraise).
  discriminate.
Qed.

Lemma validate_input_string_amount_raises_witness :
  exists e,
    validate_input sample_runtime (VDict (payload (VFloat 0) (VStr "-5"))) = Raise e /\
    exn_class e = TypeError.
Proof.
  exact (proj1 (proj2 (validate_input_string_amount_raises
                         sample_runtime "-5" (-5)%float eq_refl))).
Defined.

(** C5, on the code. A required value that [float] cannot convert because it
    is an integer beyond the range of a double makes [validate_input] raise
    [OverflowError], which its [except (ValueError, TypeError)] does not
    catch, instead of returning the type failure naming the field; [predict]
    then answers 500 INTERNAL_ERROR, not 400. Both are shown at the payload
    [payload_huge_V1]; a string that is not a number under the same key is
    reported as the claim says. *)
Theorem validate_input_huge_int_raises (rt : Runtime) :
  (exists e, py_float rt (VInt (10 ^ 400)) = Raise e /\ exn_class e = OverflowError) /\
  (exists e, validate_input rt (VDict payload_huge_V1) = Raise e /\
             exn_class e = OverflowError) /\
  (forall clock c,
      exists body w',
        predict rt clock {| get_json := Ok (VDict payload_huge_V1) |}
                (mkWorld (ready_manager c) [])
        = (Ok (body, 500), w') /\
        json_path body ["status"] = Some (VStr "INTERNAL_ERROR")) /\
  (float_of_str rt "abc" = None ->
   validate_input rt (VDict (("V1", VStr "abc") :: payload (VFloat 0) (VFloat 1)))
   = Ok (false, "Campo 'V1' deve ser um número válido")).
Proof.
  assert (Hraise : validate_input rt (VDict payload_huge_V1)
                   = Raise (mkExn OverflowError "int too large to convert to float"))
    by (vm_compute; reflexivity).
  split; [eexists; split; [vm_compute; reflexivity | reflexivity]|].
  split; [eexists; split; [exact Hraise | reflexivity]|]. split.
  - intros clock c.
    apply (predict_validation_raises rt clock
             {| get_json := Ok (VDict payload_huge_V1) |}
             (mkWorld (ready_manager c) []) (VDict payload_huge_V1) _
             eq_refl eq_refl eq_refl Hraise).
    discriminate.
  - intros Habc. unfold validate_input.
    rewrite missing_fields_dict.
    change (filter _ required_fields) with (@nil string).
    cbn [bind ret Monad_result].
    change required_fields with ([] ++ "V1" :: tl required_fields)%list.
    rewrite (check_types_first_failure rt _ [] (tl required_fields) "V1"
               (mkExn ValueError "could not convert string to float: 'abc'")).
    + reflexivity.
    + constructor.
    + unfold float_item. cbn. rewrite Habc. reflexivity.
Qed.

(** The largest integers [float] converts are those that round to the
    largest finite double. *)
Lemma float_of_int_range :
  (exists x, float_of_int (2 ^ 1024 - 2 ^ 970 - 1) = Ok x) /\
  float_of_int (2 ^ 1024 - 2 ^ 970)
  = Raise (mkExn OverflowError "int too large to convert to float").
Proof. split; [eexists|]; vm_compute; reflexivity. Qed.

(** ** Booleans in the payload *)

(** C10, as the code has it. For a payload that holds all 29 required keys,
    each with a boolean or a number that [float] converts, and whose [Amount]
    is not a number below zero, the conversion check passes ([True] counting
    as 1.0 and [False] as 0.0) and [validate_input] returns success; a
    boolean [Amount] is never below zero. *)
Theorem validate_input_accepts_booleans (rt : Runtime) (items : list (string * value)) :
  all_required (fun v => bool_or_number v = true /\ convertible rt v) items ->
  (forall amount, dict_get items "Amount" = Some amount -> negative_number amount = false) ->
  check_types rt (VDict items) required_fields = Ok None /\
  validate_input rt (VDict items) = Ok (true, "Dados válidos") /\
  py_float rt (VBool true) = Ok 1%float /\
  py_float rt (VBool false) = Ok 0%float /\
  (forall b, py_lt_zero (VBool b) = Ok false).
Proof.
  intros Hall Hamount.
  assert (Hconv : all_required (convertible rt) items).
  { intros field Hin. destruct (Hall field Hin) as (v & Hv & _ & Hc). eauto. }
  pose proof (check_types_pass _ _ _ (all_required_convertible _ _ Hconv)) as Hct.
  split; [exact Hct|]. split; [|repeat split].
  unfold validate_input. rewrite (missing_fields_none _ _ Hall).
  cbn [bind ret Monad_result]. rewrite Hct. cbn.
  destruct (Hall "Amount") as (amount & Ha & Hbn & _).
  { unfold required_fields. apply in_or_app. right. left. reflexivity. }
  rewrite Ha. specialize (Hamount amount Ha).
  destruct amount; try discriminate Hbn; cbn in *; try rewrite Hamount; reflexivity.
Qed.

Lemma validate_input_accepts_booleans_witness :
  validate_input sample_runtime (VDict (payload (VBool true) (VBool false)))
  = Ok (true, "Dados válidos").
Proof.
  refine (proj1 (proj2 (validate_input_accepts_booleans sample_runtime
                          (payload (VBool true) (VBool false)) _ _))).
  - apply payload_all_required; (split; [reflexivity | eexists; reflexivity]).
  - intros amount H. vm_compute in H. injection H as <-. reflexivity.
Defined.

(** C10 as stated fails: every required value of this payload is a boolean
    or a number, and validation does not succeed. *)
Lemma validate_input_booleans_negative_amount :
  all_required (fun v => bool_or_number v = true) (payload (VBool true) (VInt (-1))) /\
  validate_input sample_runtime (VDict (payload (VBool true) (VInt (-1))))
  = Ok (false, "Amount deve ser maior ou igual a zero") /\
  ~ (forall rt items,
        all_required (fun v => bool_or_number v = true) items ->
        validate_input rt (VDict items) = Ok (true, "Dados válidos")).
Proof.
  assert (Hall : all_required (fun v => bool_or_number v = true)
                   (payload (VBool true) (VInt (-1))))
    by (apply payload_all_required; reflexivity).
  assert (Hv : validate_input sample_runtime (VDict (payload (VBool true) (VInt (-1))))
               = Ok (false, "Amount deve ser maior ou igual a zero"))
    by (vm_compute; reflexivity).
  split; [exact Hall|]. split; [exact Hv|].
  intros H. specialize (H sample_runtime _ Hall). rewrite Hv in H. discriminate H.
Qed.

(** * Further properties of the code *)

(** ** The search for the artifact files *)

(** X6. The candidate directories are searched in the order [models/],
    [../models/], [./]: the path found is the first candidate that exists,
    every candidate before it does not exist, and nothing is found exactly
    when no candidate exists. *)
Theorem find_in_base_paths_first (env : Env) (filename : string) :
  match find_in_base_paths env filename with
  | Some full_path =>
      exists before base_path after,
        base_paths = (before ++ base_path :: after)%list /\
        full_path = os_path_join base_path filename /\
        path_exists env full_path = true /\
        Forall (fun b => path_exists env (os_path_join b filename) = false) before
  | None =>
      Forall (fun b => path_exists env (os_path_join b filename) = false) base_paths
  end.
Proof.
  unfold find_in_base_paths, base_paths. cbn [map find].
  destruct (path_exists env (os_path_join "models/" filename)) eqn:H1.
  { exists [], "models/", ["../models/"; "./"]. repeat split; auto. }
  destruct (path_exists env (os_path_join "../models/" filename)) eqn:H2.
  { exists ["models/"], "../models/", ["./"]. repeat split; auto. }
  destruct (path_exists env (os_path_join "./" filename)) eqn:H3.
  { exists ["models/"; "../models/"], "./", []. repeat split; auto. }
  repeat constructor; assumption.
Qed.

(** A located path is not the empty string, so [if model_paths[name]] holds
    for it. *)
Lemma find_in_base_paths_truth (env : Env) (filename full_path : string) :
  find_in_base_paths env filename = Some full_path ->
  path_truth (Some full_path) = true.
Proof.
  intros H. unfold find_in_base_paths in H. apply find_some in H as [Hin _].
  unfold base_paths in Hin. cbn [map In] in Hin.
  assert (G : forall base tail, os_path_join (String base tail) filename <> "").
  { intros base tail. unfold os_path_join.
    destruct (prefix "/" filename) eqn:P.
    - destruct filename; [discriminate P | discriminate].
    - destruct (String.eqb (String base tail) "" || ends_with_slash (String base tail));
        cbn; discriminate. }
  unfold path_truth.
  destruct Hin as [<- | [<- | [<- | []]]];
    apply negb_true_iff, String.eqb_neq, G.
Qed.

(** ** What a successful load leaves in the manager *)

(** What the manager holds when the [try] block of [load_models] completes. *)
Lemma load_models_try_post (env : Env) (w w' : World) (b : bool) :
  load_models_try env w = (Ok b, w') ->
  calls w' = calls w /\
  loaded_from env "modelo_fraude.pkl" (modelo (model_manager w')) /\
  match find_in_base_paths env "scaler_amount.pkl" with
  | Some _ => loaded_from env "scaler_amount.pkl" (scaler (model_manager w'))
  | None => exists s, StandardScaler_fit env amount_sample = Ok s /\
                      scaler (model_manager w') = PyScaler s
  end /\
  loaded_from env "feature_names.pkl" (feature_names (model_manager w')) /\
  match find_in_base_paths env "modelo_metadata.pkl" with
  | Some _ => loaded_from env "modelo_metadata.pkl" (metadata (model_manager w'))
  | None => exists n, obj_len (feature_names (model_manager w')) = Ok n /\
                      metadata (model_manager w') = PyData (default_metadata n)
  end /\
  metadata_is_dict (model_manager w').
Proof.
  unfold load_models_try. cbn -[find_in_base_paths].
  destruct (find_in_base_paths env "modelo_fraude.pkl") as [p1|] eqn:F1;
    [|cbn; discriminate].
  destruct (find_in_base_paths env "scaler_amount.pkl") as [p2|] eqn:F2;
    (destruct (find_in_base_paths env "feature_names.pkl") as [p3|] eqn:F3;
       [|cbn; discriminate]);
    destruct (find_in_base_paths env "modelo_metadata.pkl") as [p4|] eqn:F4;
    cbn -[path_truth];
    try rewrite (find_in_base_paths_truth _ _ _ F2);
    try rewrite (find_in_base_paths_truth _ _ _ F3);
    try rewrite (find_in_base_paths_truth _ _ _ F4);
    cbn; intros H; run_in H.
  all: injection H as <- <-; cbn.
  all: repeat match goal with
         | |- _ /\ _ => split
         | |- calls _ = calls _ => reflexivity
         | |- loaded_from _ _ _ => eexists; split; eassumption
         | |- exists s : Scaler, _ => eexists; split; reflexivity
         | |- exists n : nat, _ => eexists; split; [eassumption | reflexivity]
         | |- metadata_is_dict _ => unfold metadata_is_dict; cbn
         | |- exists items, PyData (default_metadata _) = _ => eexists; reflexivity
         | H : obj_get ?o "modelo_tipo" _ = Ok _ |- exists items, ?o = _ =>
             unfold obj_get, no_attribute in H;
             destruct o as [| |[]]; try discriminate H; eexists; reflexivity
         end.
Qed.

(** X7. When [load_models] returns [True], the manager is loaded and holds:
    as classifier and as feature names what [joblib.load] gave for the first
    located file of each (the default feature list is never used); as scaler
    the loaded one, or one fitted on the five sample amounts when no scaler
    file was located; as metadata the loaded object, or the default
    descriptor counting the loaded feature names when no metadata file was
    located; and the metadata is a dict. The log of calls is untouched. *)
Theorem load_models_true_post (env : Env) (w w' : World) :
  load_models env w = (Ok true, w') ->
  calls w' = calls w /\
  model_loaded (model_manager w') = true /\
  loaded_from env "modelo_fraude.pkl" (modelo (model_manager w')) /\
  match find_in_base_paths env "scaler_amount.pkl" with
  | Some _ => loaded_from env "scaler_amount.pkl" (scaler (model_manager w'))
  | None => exists s, StandardScaler_fit env amount_sample = Ok s /\
                      scaler (model_manager w') = PyScaler s
  end /\
  loaded_from env "feature_names.pkl" (feature_names (model_manager w')) /\
  match find_in_base_paths env "modelo_metadata.pkl" with
  | Some _ => loaded_from env "modelo_metadata.pkl" (metadata (model_manager w'))
  | None => exists n, obj_len (feature_names (model_manager w')) = Ok n /\
                      metadata (model_manager w') = PyData (default_metadata n)
  end /\
  metadata_is_dict (model_manager w').
Proof.
  unfold load_models, try_except.
  destruct (load_models_try env w) as [[b|e] w1] eqn:E; cbn; [|discriminate].
  intros H. injection H as -> ->.
  pose proof (load_models_try_ok _ _ _ _ E) as [_ Hloaded].
  pose proof (load_models_try_post _ _ _ _ E) as (H1 & H2 & H3 & H4 & H5 & H6).
  repeat (split; [assumption|]). assumption.
Qed.

Lemma load_models_true_post_witness :
  exists w',
    load_models env_classifier_features initial_world = (Ok true, w') /\
    loaded_from env_classifier_features "feature_names.pkl"
      (feature_names (model_manager w')) /\
    metadata_is_dict (model_manager w').
Proof.
  eexists.
  assert (H : load_models env_classifier_features initial_world = _)
    by (vm_compute; reflexivity).
  split; [exact H|].
  pose proof (load_models_true_post _ _ _ H) as (_ & _ & _ & _ & Hf & _ & Hm).
  split; [exact Hf | exact Hm].
Defined.

(** X8. [load_models] returns [True] exactly under [load_conditions], and
    [False] otherwise: both the classifier file and the feature-name file
    are required, the scaler file and the metadata file are optional, every
    located file must load, and a located metadata file must hold a dict. *)
Theorem load_models_true_iff (env : Env) (w : World) :
  (exists w', load_models env w = (Ok true, w')) <-> load_conditions env.
Proof.
  unfold load_conditions. split.
  - intros [w' H]. unfold load_models, try_except in H.
    destruct (load_models_try env w) as [[b|e] w1] eqn:E; cbn in H; [|discriminate H].
    pose proof (load_models_try_post _ _ _ _ E) as (_ & H1 & H2 & H3 & H4 & [items H5]).
    split; [eauto|]. split.
    + destruct (find_in_base_paths env "scaler_amount.pkl") as [p|] eqn:F.
      * destruct H2 as (p' & Hp' & Hload). rewrite F in Hp'. injection Hp' as <-. eauto.
      * destruct H2 as (s & Hs & _). eauto.
    + eexists. split; [exact H3|].
      destruct (find_in_base_paths env "modelo_metadata.pkl") as [p|] eqn:F.
      * destruct H4 as (p' & Hp' & Hload). rewrite F in Hp'. injection Hp' as <-.
        rewrite H5 in Hload. eauto.
      * destruct H4 as (n & Hn & _). eauto.
  - intros ([o1 (p1 & F1 & L1)] & Hs & (o3 & (p3 & F3 & L3) & Hm)).
    unfold load_models, try_except, load_models_try.
    cbn -[find_in_base_paths]. rewrite F1, F3.
    destruct (find_in_base_paths env "scaler_amount.pkl") as [p2|] eqn:F2;
      destruct (find_in_base_paths env "modelo_metadata.pkl") as [p4|] eqn:F4;
      cbn -[path_truth];
      try rewrite (find_in_base_paths_truth _ _ _ F2);
      rewrite (find_in_base_paths_truth _ _ _ F3);
      try rewrite (find_in_base_paths_truth _ _ _ F4);
      cbn; rewrite L1; cbn;
      destruct Hs as [x Hs]; rewrite Hs; cbn; rewrite L3; cbn;
      destruct Hm as [y Hm]; rewrite Hm; cbn; unfold obj_get; cbn; eauto.
Qed.

Lemma load_models_true_iff_witness :
  exists w', load_models env_classifier_features initial_world = (Ok true, w').
Proof.
  apply (proj2 (load_models_true_iff env_classifier_features initial_world)).
  unfold load_conditions.
  split; [eexists; eexists; split; reflexivity|].
  split; [cbn; eauto|].
  exists (PyData default_feature_names).
  split; [eexists; split; reflexivity|].
  cbn. eexists. reflexivity.
Defined.

(** X9. Loading again changes nothing: in the state a call of [load_models]
    leaves, a second call on the same environment returns the same boolean
    and leaves the same state; in particular a failed load stays failed and
    a loaded manager keeps its artifacts. *)
Theorem load_models_idempotent (env : Env) (w w1 : World) (r : result bool) :
  load_models env w = (r, w1) -> load_models env w1 = (r, w1).
Proof.
  unfold load_models, try_except, load_models_try.
  cbn -[find_in_base_paths].
  destruct (find_in_base_paths env "modelo_fraude.pkl") as [p1|] eqn:F1;
    [|cbn; intros H; injection H as <- <-; reflexivity].
  destruct (find_in_base_paths env "scaler_amount.pkl") as [p2|] eqn:F2;
    (destruct (find_in_base_paths env "feature_names.pkl") as [p3|] eqn:F3;
       [|cbn; intros H; injection H as <- <-; reflexivity]);
    destruct (find_in_base_paths env "modelo_metadata.pkl") as [p4|] eqn:F4;
    cbn -[path_truth];
    try rewrite (find_in_base_paths_truth _ _ _ F2);
    try rewrite (find_in_base_paths_truth _ _ _ F3);
    try rewrite (find_in_base_paths_truth _ _ _ F4);
    cbn; intros H; run_in H.
  all: injection H as <- <-; cbn.
  all: repeat match goal with
         | E : ?x = _ |- context [match ?x with _ => _ end] => rewrite E; cbn
         end.
  all: reflexivity.
Qed.

Lemma load_models_idempotent_witness :
  load_models env_classifier_only initial_world
  = load_models env_classifier_only
      (snd (load_models env_classifier_only initial_world)).
Proof.
  symmetry.
  rewrite (load_models_idempotent env_classifier_only initial_world
             (snd (load_models env_classifier_only initial_world))
             (fst (load_models env_classifier_only initial_world))
             (surjective_pairing _)).
  apply surjective_pairing.
Defined.

(** ** Start-up *)

(** X10. [initialize_app] ends in the state [load_models] leaves. It
    completes when the load fails, and when the load succeeds with metadata
    whose [metricas_teste] entry is absent or a dict; when that entry is
    anything else (a list, a number, [None]), the unguarded
    [.get('recall', ...)] raises [AttributeError] out of [initialize_app]. *)
Theorem initialize_app_outcome (env : Env) (w : World) :
  exists (b : bool) (w' : World),
    load_models env w = (Ok b, w') /\
    if b then
      exists items,
        metadata (model_manager w') = PyData (VDict items) /\
        match dict_get items "metricas_teste" with
        | None | Some (VDict _) => initialize_app env w = (Ok tt, w')
        | Some _ =>
            exists e, initialize_app env w = (Raise e, w') /\
                      exn_class e = AttributeError
        end
    else initialize_app env w = (Ok tt, w').
Proof.
  unfold initialize_app. cbn. unfold load_models, try_except.
  destruct (load_models_try env w) as [[b|e] w1] eqn:E; cbn.
  - pose proof (load_models_try_ok _ _ _ _ E) as [-> _].
    pose proof (load_models_try_post _ _ _ _ E) as (_ & _ & _ & _ & _ & [items Hm]).
    exists true, w1. split; [reflexivity|]. exists items. split; [exact Hm|].
    cbn. rewrite Hm. unfold obj_get. cbn.
    destruct (dict_get items "metricas_teste") as [[]|]; cbn; eauto.
  - exists false. eexists. split; reflexivity.
Qed.

(** A metadata file whose [metricas_teste] is a list stops the start-up. *)
Lemma initialize_app_outcome_witness :
  exists e w',
    initialize_app
      (env_with_metadata (VDict [("modelo_tipo", VStr "XGBoost");
                                 ("metricas_teste", VList [VFloat 0.91])]))
      initial_world
    = (Raise e, w') /\
    exn_class e = AttributeError /\ model_loaded (model_manager w') = true.
Proof.
  destruct (initialize_app_outcome
              (env_with_metadata (VDict [("modelo_tipo", VStr "XGBoost");
                                         ("metricas_teste", VList [VFloat 0.91])]))
              initial_world) as (b & w' & Hload & H).
  vm_compute in Hload. injection Hload as <- <-.
  destruct H as (items & Hitems & H). cbn in Hitems. injection Hitems as <-.
  cbn in H. destruct H as (e & He & Hclass).
  exists e. eexists. split; [exact He|]. split; [exact Hclass | reflexivity].
Defined.

(** ** The documentation page and the model information *)

(** X11. In the state [load_models] leaves, [home] does not raise and
    changes nothing: after a failed load the page shows the error status and
    [N/A] for the four model fields; after a successful load it shows the
    success status and the metadata entries, [N/A] standing for an absent
    one. *)
Theorem home_after_load (env : Env) (w w' : World) (b : bool) :
  load_models env w = (Ok b, w') ->
  exists context,
    home env w' = (Ok context, w') /\
    dict_get context "status_class" = Some (VStr (if b then "success" else "error")) /\
    if b then
      exists items,
        metadata (model_manager w') = PyData (VDict items) /\
        dict_get context "model_type" = Some (get_or items "modelo_tipo" (VStr "N/A")) /\
        dict_get context "num_features"
        = Some (get_or items "numero_features" (VStr "N/A")) /\
        dict_get context "model_version"
        = Some (get_or items "versao_modelo" (VStr "N/A")) /\
        dict_get context "train_date"
        = Some (get_or items "data_treinamento" (VStr "N/A"))
    else
      dict_get context "model_type" = Some (VStr "N/A") /\
      dict_get context "num_features" = Some (VStr "N/A") /\
      dict_get context "model_version" = Some (VStr "N/A") /\
      dict_get context "train_date" = Some (VStr "N/A").
Proof.
  unfold load_models, try_except.
  destruct (load_models_try env w) as [[b'|e] w1] eqn:E; cbn; intros H;
    injection H as <- <-.
  - pose proof (load_models_try_ok _ _ _ _ E) as [-> Hloaded].
    pose proof (load_models_try_post _ _ _ _ E) as (_ & _ & _ & _ & _ & [items Hm]).
    unfold home. cbn. rewrite Hloaded, Hm. unfold obj_truth, py_truth, obj_get, get_or.
    destruct items as [|kv items']; cbn; eexists;
      (split; [reflexivity|]); (split; [reflexivity|]);
      eexists; (split; [reflexivity|]); repeat split.
  - unfold home, obj_get. cbn. eexists. repeat split.
Qed.

Lemma home_after_load_witness :
  exists context,
    home env_empty initial_world = (Ok context, initial_world) /\
    dict_get context "status_class" = Some (VStr "error") /\
    dict_get context "model_type" = Some (VStr "N/A").
Proof.
  destruct (home_after_load env_empty initial_world initial_world false
              ltac:(vm_compute; reflexivity)) as (context & H1 & H2 & H3 & _).
  exists context. repeat split; assumption.
Defined.

#[local] Arguments jsonify_obj : simpl never.

(** X12. [model_info] never raises and changes nothing. It answers 503 when
    the manager is not loaded; 200 with the metadata entries ([N/A] for an
    absent one, an empty dict for absent test metrics) and the feature names
    when the manager is loaded, its metadata is a dict and its feature names
    are plain data; and 500 when the manager is loaded but the metadata is
    not a dict or the feature names cannot be serialized. *)
Theorem model_info_outcome (env : Env) (clock : Clock) (w : World) :
  (exists response, model_info env clock w = (Ok response, w)) /\
  (model_loaded (model_manager w) = false ->
   model_info env clock w
   = (Ok (VDict [("erro", VStr "Modelo não carregado"); ("status", VStr "ERROR")], 503),
      w)) /\
  (model_loaded (model_manager w) = true ->
   forall items features,
     metadata (model_manager w) = PyData (VDict items) ->
     feature_names (model_manager w) = PyData features ->
     exists body,
       model_info env clock w = (Ok (body, 200), w) /\
       json_path body ["modelo"; "tipo"] = Some (get_or items "modelo_tipo" (VStr "N/A")) /\
       json_path body ["modelo"; "versao"]
       = Some (get_or items "versao_modelo" (VStr "N/A")) /\
       json_path body ["modelo"; "data_treinamento"]
       = Some (get_or items "data_treinamento" (VStr "N/A")) /\
       json_path body ["modelo"; "numero_features"]
       = Some (get_or items "numero_features" (VStr "N/A")) /\
       json_path body ["performance"] = Some (get_or items "metricas_teste" (VDict [])) /\
       json_path body ["features"] = Some features) /\
  (model_loaded (model_manager w) = true ->
   (forall items, metadata (model_manager w) <> PyData (VDict items)) \/
   (forall features, feature_names (model_manager w) <> PyData features) ->
   exists body,
     model_info env clock w = (Ok (body, 500), w) /\
     json_path body ["status"] = Some (VStr "ERROR")).
Proof.
  unfold model_info, try_except. cbn.
  destruct (model_loaded (model_manager w)) eqn:Hloaded; cbn.
  2: { split; [eauto|]. split; [reflexivity|]. split; discriminate. }
  split; [|split; [discriminate|split]].
  - unfold obj_get, jsonify_obj, no_attribute.
    destruct (metadata (model_manager w)) as [| |[]]; cbn; eauto.
    destruct (feature_names (model_manager w)); cbn; eauto.
  - intros _ items features Hm Hf. rewrite Hm, Hf.
    unfold obj_get, jsonify_obj, get_or. cbn. eexists. repeat split.
  - intros _ [Hm | Hf]; unfold obj_get, jsonify_obj, no_attribute.
    + destruct (metadata (model_manager w)) as [| |[]]; cbn; eauto.
      exfalso. eapply Hm. reflexivity.
    + destruct (metadata (model_manager w)) as [| |[]]; cbn; eauto.
      destruct (feature_names (model_manager w)); cbn; eauto.
      exfalso. eapply Hf. reflexivity.
Qed.

Lemma model_info_outcome_witness :
  exists body,
    model_info env_empty sample_clock (mkWorld (ready_manager failing_classifier) [])
    = (Ok (body, 200), mkWorld (ready_manager failing_classifier) []) /\
    json_path body ["modelo"; "tipo"] = Some (VStr "XGBoost") /\
    json_path body ["modelo"; "numero_features"] = Some (VInt 29) /\
    json_path body ["features"] = Some default_feature_names.
Proof.
  destruct (proj1 (proj2 (proj2 (model_info_outcome env_empty sample_clock
                                   (mkWorld (ready_manager failing_classifier) []))))
              eq_refl _ _ eq_refl eq_refl)
    as (body & H & H1 & _ & _ & H4 & _ & H6).
  exists body. repeat split; assumption.
Defined.

(** ** Rejections and failures of the prediction route *)

(** The [try] block of [predict] does not write to the manager, only adds to
    the log of calls, and returns with one of three codes. *)
Lemma predict_try_frame (rt : Runtime) (clock : Clock) (request : Request)
  (w w1 : World) (r : result Response) :
  predict_try rt clock request w = (r, w1) ->
  model_manager w1 = model_manager w /\
  (exists added, calls w1 = (calls w ++ added)%list) /\
  (forall body code, r = Ok (body, code) -> code = 200 \/ code = 400 \/ code = 503).
Proof.
  unfold predict_try. cbn. intros H.
  repeat (destruct_scrutinee_in H; cbn in H).
  all: injection H as <- <-; cbn.
  all: split; [reflexivity|]; split.
  all: try (intros body code Hr; try discriminate Hr; injection Hr as <- <-; auto).
  all: rewrite <- ?app_assoc; eexists; try reflexivity.
  all: symmetry; apply app_nil_r.
Qed.

(** X13. [predict] never raises and never writes to the model manager: for
    every request and state it returns a body with code 200, 400, 500 or 503,
    the manager is as before, and the log of calls only grows. *)
Theorem predict_always_answers (rt : Runtime) (clock : Clock) (request : Request)
  (w : World) :
  exists body code w',
    predict rt clock request w = (Ok (body, code), w') /\
    (code = 200 \/ code = 400 \/ code = 500 \/ code = 503) /\
    model_manager w' = model_manager w /\
    exists added, calls w' = (calls w ++ added)%list.
Proof.
  unfold predict, try_except.
  destruct (predict_try rt clock request w) as [[[body code]|e] w1] eqn:E;
    destruct (predict_try_frame _ _ _ _ _ _ E) as (Hm & Hc & Hcode).
  - exists body, code, w1. split; [reflexivity|].
    destruct (Hcode body code eq_refl) as [-> | [-> | ->]]; auto.
  - destruct (exn_class e); cbn; do 3 eexists;
      (split; [reflexivity|]); auto 6.
Qed.

(** X14. On a loaded manager, a request whose JSON body is falsy (an empty
    object or list, [null], [0], an empty string, [false]) is answered 400
    "Dados JSON não fornecidos" before the validator is called: the state,
    log of calls included, is as before. *)
Theorem predict_empty_body (rt : Runtime) (clock : Clock) (request : Request)
  (w : World) (dados : value) :
  model_loaded (model_manager w) = true ->
  get_json request = Ok dados ->
  py_truth dados = false ->
  predict rt clock request w
  = (Ok (error_response clock "Dados JSON não fornecidos" "ERROR", 400), w).
Proof.
  intros Hloaded Hjson Htruth.
  unfold predict, try_except, predict_try. cbn.
  rewrite Hloaded. cbn. rewrite Hjson. cbn. rewrite Htruth. reflexivity.
Qed.

Lemma predict_empty_body_witness :
  predict sample_runtime sample_clock {| get_json := Ok (VDict []) |}
    (mkWorld (ready_manager failing_classifier) [])
  = (Ok (error_response sample_clock "Dados JSON não fornecidos" "ERROR", 400),
     mkWorld (ready_manager failing_classifier) []).
Proof.
  exact (predict_empty_body sample_runtime sample_clock {| get_json := Ok (VDict []) |}
           (mkWorld (ready_manager failing_classifier) []) (VDict [])
           eq_refl eq_refl eq_refl).
Defined.

(** X15. On a loaded manager, a body the validator rejects is answered 400
    VALIDATION_ERROR with the validator's message, and the pipeline stops
    there: the only call logged is the one to the validator, so neither the
    preprocessor nor the classifier runs. *)
Theorem predict_validation_failure (rt : Runtime) (clock : Clock) (request : Request)
  (w : World) (dados : value) (validation_message : string) :
  model_loaded (model_manager w) = true ->
  get_json request = Ok dados ->
  py_truth dados = true ->
  validate_input rt dados = Ok (false, validation_message) ->
  predict rt clock request w
  = (Ok (error_response clock validation_message "VALIDATION_ERROR", 400),
     mkWorld (model_manager w) (calls w ++ [CallValidateInput dados])).
Proof.
  intros Hloaded Hjson Htruth Hvalid.
  unfold predict, try_except, predict_try. cbn.
  rewrite Hloaded. cbn. rewrite Hjson. cbn. rewrite Htruth. cbn. rewrite Hvalid.
  reflexivity.
Qed.

Lemma predict_validation_failure_witness :
  predict sample_runtime sample_clock
    {| get_json := Ok (VDict (payload (VFloat 0) (VInt (-1)))) |}
    (mkWorld (ready_manager failing_classifier) [])
  = (Ok (error_response sample_clock "Amount deve ser maior ou igual a zero"
           "VALIDATION_ERROR", 400),
     mkWorld (ready_manager failing_classifier)
       [CallValidateInput (VDict (payload (VFloat 0) (VInt (-1))))]).
Proof.
  exact (predict_validation_failure sample_runtime sample_clock
           {| get_json := Ok (VDict (payload (VFloat 0) (VInt (-1)))) |}
           (mkWorld (ready_manager failing_classifier) [])
           (VDict (payload (VFloat 0) (VInt (-1))))
           "Amount deve ser maior ou igual a zero"
           eq_refl eq_refl eq_refl ltac:(vm_compute; reflexivity)).
Defined.

(** X16. On a loaded manager and a validated, preprocessed body, an
    exception raised by the classifier's [predict] does not leave the route:
    it is answered 500 INTERNAL_ERROR with the exception text, unless the
    exception is a [KeyError], which the first [except] clause reports as
    400 VALIDATION_ERROR "Campo obrigatório não encontrado" although no
    field is missing. [predict_proba] is not called in either case. *)
Theorem predict_classifier_failure (rt : Runtime) (clock : Clock) (request : Request)
  (w : World) (dados : value) (msg : string) (entrada : list (list float))
  (e : Exception) :
  model_loaded (model_manager w) = true ->
  get_json request = Ok dados ->
  py_truth dados = true ->
  validate_input rt dados = Ok (true, msg) ->
  preprocess_data rt (model_manager w) dados = Ok entrada ->
  obj_predict (modelo (model_manager w)) entrada = Raise e ->
  predict rt clock request w
  = (Ok (match exn_class e with
         | KeyError =>
             (error_response clock ("Campo obrigatório não encontrado: " ++ exn_str e)
                "VALIDATION_ERROR", 400)
         | _ =>
             (error_response clock ("Erro interno do servidor: " ++ exn_str e)
                "INTERNAL_ERROR", 500)
         end),
     mkWorld (model_manager w)
       (calls w ++ [CallValidateInput dados; CallPreprocessData dados;
                    CallPredict entrada])).
Proof.
  intros Hloaded Hjson Htruth Hvalid Hpre Hpred.
  unfold predict, try_except, predict_try. cbn.
  rewrite Hloaded. cbn. rewrite Hjson. cbn. rewrite Htruth. cbn. rewrite Hvalid. cbn.
  rewrite Hpre. cbn. rewrite Hpred. cbn.
  rewrite <- !app_assoc. cbn.
  destruct (exn_class e); reflexivity.
Qed.

(** A classifier whose [predict] raises [KeyError]. *)
Lemma predict_classifier_failure_witness :
  exists w',
    predict sample_runtime sample_clock
      {| get_json := Ok (VDict (payload (VFloat 0) (VFloat 1))) |}
      (mkWorld (ready_manager
                  {| clf_predict := fun _ => Raise (mkExn KeyError "'f29'");
                     clf_predict_proba := fun _ => Ok [] |}) [])
    = (Ok (error_response sample_clock "Campo obrigatório não encontrado: 'f29'"
             "VALIDATION_ERROR", 400), w').
Proof.
  eexists.
  exact (predict_classifier_failure sample_runtime sample_clock
           {| get_json := Ok (VDict (payload (VFloat 0) (VFloat 1))) |}
           (mkWorld (ready_manager
                       {| clf_predict := fun _ => Raise (mkExn KeyError "'f29'");
                          clf_predict_proba := fun _ => Ok [] |}) [])
           (VDict (payload (VFloat 0) (VFloat 1))) "Dados válidos"
           [(repeat 0%float 28 ++ [1%float])%list] (mkExn KeyError "'f29'")
           eq_refl eq_refl eq_refl
           ltac:(vm_compute; reflexivity) ltac:(vm_compute; reflexivity) eq_refl).
Defined.

(** X17. In every answer with code 200, the body is built from the
    classifier's outputs alone: [fraude] is the label, [status] is FRAUDE
    exactly when the label is 1, which is exactly when the action is
    BLOQUEAR; the two probabilities are the second and the first entry of
    the classifier's probability row, each rounded to 4 places (that they
    sum to 1 is not checked); and the calls logged are validator,
    preprocessor, [predict] and [predict_proba], in that order, the last two
    on the same preprocessed row. *)
Theorem predict_200_body (rt : Runtime) (clock : Clock) (request : Request)
  (w w' : World) (body : value) :
  predict rt clock request w = (Ok (body, 200), w') ->
  exists dados entrada labels resultado probas probabilidades prob_fraude prob_normal,
    get_json request = Ok dados /\
    preprocess_data rt (model_manager w) dados = Ok entrada /\
    obj_predict (modelo (model_manager w)) entrada = Ok labels /\
    nth_error labels 0 = Some resultado /\
    obj_predict_proba (modelo (model_manager w)) entrada = Ok probas /\
    nth_error probas 0 = Some probabilidades /\
    nth_error probabilidades 1 = Some prob_fraude /\
    nth_error probabilidades 0 = Some prob_normal /\
    json_path body ["resultado"; "fraude"] = Some (VInt resultado) /\
    json_path body ["resultado"; "status"]
    = Some (VStr (if resultado =? 1 then "FRAUDE" else "NORMAL")) /\
    json_path body ["resultado"; "probabilidade_fraude"]
    = Some (VFloat (py_round rt prob_fraude 4)) /\
    json_path body ["resultado"; "probabilidade_normal"]
    = Some (VFloat (py_round rt prob_normal 4)) /\
    (json_path body ["resultado"; "status"] = Some (VStr "FRAUDE")
     <-> json_path body ["recomendacao"; "acao"] = Some (VStr "BLOQUEAR")) /\
    w' = mkWorld (model_manager w)
           (calls w ++ [CallValidateInput dados; CallPreprocessData dados;
                        CallPredict entrada; CallPredictProba entrada]).
Proof.
  unfold predict, try_except.
  destruct (predict_try rt clock request w) as [[response|e] w1] eqn:E.
  2: { destruct (exn_class e); cbn; intros H; discriminate H. }
  intros H. injection H as -> ->.
  unfold predict_try in E. cbn in E.
  run_in E.
  all: try (injection E as E1 E2; discriminate E1).
  injection E as <- <-.
  assert (Hnth : forall (A : Type) (l : list A) (i : nat) (x : A),
             py_index l i = Ok x -> nth_error l i = Some x).
  { intros A l i x Hx. unfold py_index in Hx.
    destruct (nth_error l i); congruence. }
  do 8 eexists.
  repeat (split; [first [eassumption | apply Hnth; eassumption | reflexivity]|]).
  split.
  - unfold prediction_response. cbn. destruct (_ =? 1); split; intros H;
      first [reflexivity | discriminate H].
  - rewrite <- !app_assoc. reflexivity.
Qed.

Lemma predict_200_body_witness :
  exists body w',
    predict sample_runtime sample_clock
      {| get_json := Ok (VDict (payload (VFloat 0) (VFloat 10))) |}
      (mkWorld (ready_manager (constant_classifier 1 0.85)) [])
    = (Ok (body, 200), w') /\
    json_path body ["resultado"; "fraude"] = Some (VInt 1) /\
    List.length (calls w') = 4%nat.
Proof.
  eexists. eexists.
  assert (H : predict sample_runtime sample_clock
                {| get_json := Ok (VDict (payload (VFloat 0) (VFloat 10))) |}
                (mkWorld (ready_manager (constant_classifier 1 0.85)) [])
              = _) by (vm_compute; reflexivity).
  split; [exact H|].
  destruct (predict_200_body _ _ _ _ _ _ H)
    as (dados & entrada & labels & resultado & probas & probabilidades & pf & pn
        & _ & _ & Hpred & Hlabel & _ & _ & _ & _ & Hfraude & _).
  vm_compute in Hpred. injection Hpred as <-.
  cbn in Hlabel. injection Hlabel as <-.
  split; [exact Hfraude | reflexivity].
Defined.

(** ** What the validator accepts, and what it raises *)

Lemma py_lt_zero_false_iff (v : value) :
  py_lt_zero v = Ok false <-> bool_or_number v = true /\ negative_number v = false.
Proof.
  destruct v; cbn; split; try (intros [H1 H2]); try intros H;
    try discriminate; try (split; [reflexivity|]); try congruence; try reflexivity.
Qed.

Lemma float_item_dict (rt : Runtime) (items : list (string * value)) (field : string) :
  float_item rt (VDict items) field
  = match dict_get items field with
    | Some v => py_float rt v
    | None => Raise (mkExn KeyError (py_repr_str field))
    end.
Proof. unfold float_item. cbn. destruct (dict_get items field); reflexivity. Qed.

Lemma validate_input_accepts (rt : Runtime) (items : list (string * value))
  (amount : value) :
  all_required (convertible rt) items ->
  dict_get items "Amount" = Some amount ->
  py_lt_zero amount = Ok false ->
  validate_input rt (VDict items) = Ok (true, "Dados válidos").
Proof.
  intros Hreq Hget Hlt.
  unfold validate_input. rewrite (missing_fields_none _ _ Hreq).
  cbn [bind ret Monad_result].
  rewrite (check_types_pass _ _ _ (all_required_convertible _ _ Hreq)). cbn.
  rewrite Hget, Hlt. reflexivity.
Qed.

(** X18. [validate_input] returns success exactly for a mapping that holds
    all 29 required keys with values [float] converts and whose [Amount] is
    a boolean or a number not below zero; the message is then
    "Dados válidos". Nothing else about [Amount] is checked: NaN and
    +Infinity pass. *)
Theorem validate_input_true_iff (rt : Runtime) (dados : value) (msg : string) :
  validate_input rt dados = Ok (true, msg) <->
  msg = "Dados válidos" /\
  exists items,
    dados = VDict items /\
    all_required (convertible rt) items /\
    exists amount,
      dict_get items "Amount" = Some amount /\
      bool_or_number amount = true /\ negative_number amount = false.
Proof.
  split.
  - intros H. pose proof (validate_input_ok_inv _ _ _ H) as (Hall & amount & Ha & Hlt).
    destruct dados; try discriminate Ha.
    assert (Hreq : all_required (convertible rt) items).
    { intros field Hin. rewrite Forall_forall in Hall.
      destruct (Hall field Hin) as [x Hx]. rewrite float_item_dict in Hx.
      destruct (dict_get items field) as [v|]; [|discriminate Hx].
      exists v. split; [reflexivity|]. exists x. exact Hx. }
    cbn in Ha. destruct (dict_get items "Amount") as [a|] eqn:Hget; [|discriminate Ha].
    injection Ha as ->.
    split.
    + rewrite (validate_input_accepts _ _ _ Hreq Hget Hlt) in H. congruence.
    + exists items. split; [reflexivity|]. split; [exact Hreq|].
      exists amount. split; [exact Hget|]. apply py_lt_zero_false_iff. exact Hlt.
  - intros (-> & items & -> & Hreq & amount & Hget & Hbn & Hneg).
    apply (validate_input_accepts _ _ _ Hreq Hget).
    apply py_lt_zero_false_iff. split; assumption.
Qed.

(** A NaN amount is accepted. *)
Lemma validate_input_true_iff_witness :
  validate_input sample_runtime (VDict (payload (VFloat 0) (VFloat nan)))
  = Ok (true, "Dados válidos").
Proof.
  apply (proj2 (validate_input_true_iff sample_runtime
                  (VDict (payload (VFloat 0) (VFloat nan))) "Dados válidos")).
  split; [reflexivity|]. eexists. split; [reflexivity|]. split.
  - apply payload_all_required; eexists; reflexivity.
  - exists (VFloat nan). repeat split.
Defined.

Lemma py_float_raises (rt : Runtime) (v : value) (e : Exception) :
  py_float rt v = Raise e ->
  exn_class e = OverflowError \/ exn_class e = ValueError \/ exn_class e = TypeError.
Proof.
  destruct v; cbn; try (intros H; injection H as <-; auto).
  - destruct b; discriminate.
  - unfold float_of_int.
    destruct (binary_normalize prec emax n 0 false); intros H;
      try discriminate H; injection H as <-; auto.
  - discriminate.
  - destruct (float_of_str rt s); intros H; [discriminate H|]. injection H as <-. auto.
Qed.

Lemma missing_fields_raises (dados : value) (fields : list string) (e : Exception) :
  missing_fields dados fields = Raise e -> exn_class e = TypeError.
Proof.
  induction fields as [|field rest IH]; cbn; [discriminate|].
  destruct (py_contains dados field) as [present|e'] eqn:Hc.
  - destruct (missing_fields dados rest); [discriminate | auto].
  - intros H. injection H as <-.
    destruct dados; cbn in Hc; try discriminate Hc; injection Hc as <-; reflexivity.
Qed.

Lemma check_types_raises (rt : Runtime) (dados : value) (fields : list string)
  (e : Exception) :
  check_types rt dados fields = Raise e ->
  exists field e', In field fields /\ float_item rt dados field = Raise e' /\
                   e = e' /\ exn_class e <> ValueError /\ exn_class e <> TypeError.
Proof.
  induction fields as [|field rest IH]; cbn [check_types]; [discriminate|].
  destruct (float_item rt dados field) as [x|e'] eqn:Hf.
  - intros H. destruct (IH H) as (f & e'' & Hin & Hr). exists f, e''.
    split; [right; exact Hin | exact Hr].
  - destruct (exn_class e') eqn:Hc; intros H; try discriminate H; injection H as <-;
      exists field, e'; rewrite Hc;
      (split; [left; reflexivity|]); (split; [exact Hf|]); (split; [reflexivity|]);
      split; discriminate.
Qed.

Lemma missing_fields_nil_present (items : list (string * value)) (fields : list string) :
  missing_fields (VDict items) fields = Ok [] ->
  forall field, In field fields -> dict_get items field <> None.
Proof.
  induction fields as [|f rest IH]; intros H field Hin; [contradiction|].
  cbn [missing_fields py_contains bind ret Monad_result] in H.
  destruct (missing_fields (VDict items) rest) as [others|e]; [|discriminate H].
  destruct (dict_get items f) as [v|] eqn:Hf; [|discriminate H].
  injection H as ->.
  destruct Hin as [<- | Hin]; [congruence | apply IH; auto].
Qed.

(** X19. Whatever the payload, the only exceptions [validate_input] lets
    out are [OverflowError] (an integer too large for [float]) and
    [TypeError] (a payload that is no container, or an [Amount] that cannot
    be compared with 0); it never raises [KeyError], so the
    [except KeyError] clause of [predict] is not reached from validation. *)
Theorem validate_input_raises_only (rt : Runtime) (dados : value) (e : Exception) :
  validate_input rt dados = Raise e ->
  exn_class e = OverflowError \/ exn_class e = TypeError.
Proof.
  unfold validate_input. cbn [bind ret Monad_result].
  destruct (missing_fields dados required_fields) as [[|m ms]|e0] eqn:Hm.
  3: { intros H. injection H as <-. right. eapply missing_fields_raises. exact Hm. }
  2: discriminate.
  destruct (check_types rt dados required_fields) as [[r|]|e0] eqn:Hc.
  - discriminate.
  - destruct (py_getitem dados "Amount") as [amount|e1] eqn:Ha.
    + destruct (py_lt_zero amount) as [[|]|e2] eqn:Hlt; try discriminate.
      intros H. injection H as <-. right.
      destruct amount; cbn in Hlt; try discriminate Hlt; injection Hlt as <-; reflexivity.
    + apply check_types_pass_inv in Hc. rewrite Forall_forall in Hc.
      destruct (Hc "Amount") as [x Hx].
      { unfold required_fields. apply in_or_app. right. left. reflexivity. }
      unfold float_item in Hx. rewrite Ha in Hx. discriminate Hx.
  - intros H. injection H as <-.
    destruct (check_types_raises _ _ _ _ Hc) as (field & e' & Hin & Hf & -> & Hv & Ht).
    unfold float_item in Hf. cbn [bind Monad_result] in Hf.
    destruct (py_getitem dados field) as [v|e1] eqn:Hg.
    + destruct (py_float_raises _ _ _ Hf) as [H | [H | H]]; auto; contradiction.
    + injection Hf as ->.
      destruct dados; cbn in Hg; try (injection Hg as <-; cbn in Ht; contradiction).
      (* a mapping: the key is present, since no field is missing *)
      exfalso. apply (missing_fields_nil_present _ _ Hm field Hin).
      destruct (dict_get items field); [discriminate Hg | reflexivity].
Qed.

Lemma validate_input_raises_only_witness :
  exists e, validate_input sample_runtime (VInt 5) = Raise e /\ exn_class e = TypeError.
Proof.
  eexists. assert (H : validate_input sample_runtime (VInt 5) = _)
    by (vm_compute; reflexivity).
  split; [exact H|].
  destruct (validate_input_raises_only _ _ _ H) as [Ho | Ht]; [discriminate Ho | exact Ht].
Defined.

(** ** Keys outside the schema, and missing keys in the preprocessor *)

Lemma check_types_ext (rt : Runtime) (dados dados' : value) (fields : list string) :
  (forall field, In field fields ->
     float_item rt dados field = float_item rt dados' field) ->
  check_types rt dados fields = check_types rt dados' fields.
Proof.
  induction fields as [|field rest IH]; intros H; cbn [check_types]; [reflexivity|].
  rewrite (H field (or_introl eq_refl)), IH; [reflexivity|].
  intros f Hf. apply H. right. exact Hf.
Qed.

Lemma mapM_ext_in {A B : Type} (f g : A -> result B) (xs : list A) :
  (forall x, In x xs -> f x = g x) -> mapM f xs = mapM g xs.
Proof.
  induction xs as [|x xs IH]; intros H; cbn [mapM]; [reflexivity|].
  rewrite (H x (or_introl eq_refl)), IH; [reflexivity|].
  intros y Hy. apply H. right. exact Hy.
Qed.

(** X20. The validator and the preprocessor read a mapping through its 29
    required keys only: two mappings that agree on those keys get the same
    validation result and the same feature row (or the same exception), so
    extra keys are ignored and the order of the keys does not matter. *)
Theorem required_keys_only (rt : Runtime) (self : ModelManager)
  (items items' : list (string * value)) :
  (forall field, In field required_fields -> dict_get items field = dict_get items' field) ->
  validate_input rt (VDict items) = validate_input rt (VDict items') /\
  preprocess_data rt self (VDict items) = preprocess_data rt self (VDict items').
Proof.
  intros H.
  assert (Hfi : forall field, In field required_fields ->
            float_item rt (VDict items) field = float_item rt (VDict items') field).
  { intros field Hin. rewrite !float_item_dict, (H field Hin). reflexivity. }
  split.
  - unfold validate_input. rewrite !missing_fields_dict.
    rewrite (filter_ext_in _ (fun field => match dict_get items' field with
                                           | Some _ => false
                                           | None => true
                                           end) required_fields)
      by (intros f Hf; now rewrite (H f Hf)).
    rewrite (check_types_ext rt _ _ _ Hfi).
    cbn [py_getitem]. rewrite (H "Amount"); [reflexivity|].
    unfold required_fields. apply in_or_app. right. left. reflexivity.
  - unfold preprocess_data.
    rewrite (mapM_ext_in _ (fun i => float_item rt (VDict items') ("V" ++ str_of_nat i))).
    + rewrite (Hfi "Amount"); [reflexivity|].
      unfold required_fields. apply in_or_app. right. left. reflexivity.
    + intros i Hi. apply Hfi. unfold required_fields, V_names.
      apply in_or_app. left.
      exact (in_map (fun i => "V" ++ str_of_nat i) _ _ Hi).
Qed.

(** An extra key in front of the payload changes nothing. *)
Lemma required_keys_only_witness :
  validate_input sample_runtime
    (VDict (("Time", VStr "noon") :: payload (VFloat 0) (VFloat 1)))
  = validate_input sample_runtime (VDict (payload (VFloat 0) (VFloat 1))).
Proof.
  refine (proj1 (required_keys_only sample_runtime ModelManager_init
                   (("Time", VStr "noon") :: payload (VFloat 0) (VFloat 1))
                   (payload (VFloat 0) (VFloat 1)) _)).
  intros field Hin. cbn [dict_get].
  destruct (String.eqb "Time" field) eqn:E; [|reflexivity].
  apply String.eqb_eq in E. subst field. exfalso.
  unfold required_fields in Hin.
  let names := eval vm_compute in V_names in change V_names with names in Hin.
  simpl in Hin. repeat (destruct Hin as [Hin | Hin]; [discriminate Hin|]). exact Hin.
Defined.

(** X21. Called on a mapping that was not validated, [preprocess_data]
    raises [KeyError] at the first required key that is missing, provided
    the values before it convert, and the scaler is not called. One case
    differs: when the missing key is [Amount] (the last one) and the scaler
    object has no [transform] method, the [AttributeError] of the method
    lookup comes first. *)
Theorem preprocess_data_missing_key (rt : Runtime) (self : ModelManager)
  (items : list (string * value)) (before after : list string) (field : string) :
  required_fields = (before ++ field :: after)%list ->
  Forall (fun f => exists x, float_item rt (VDict items) f = Ok x) before ->
  dict_get items field = None ->
  (after <> [] \/ (exists sc, scaler self = PyScaler sc) ->
   preprocess_data rt self (VDict items) = Raise (mkExn KeyError (py_repr_str field))) /\
  (after = [] -> (forall sc, scaler self <> PyScaler sc) ->
   exists e, preprocess_data rt self (VDict items) = Raise e /\
             exn_class e = AttributeError).
Proof.
  intros Hsplit Hbefore Hnone.
  assert (Hraise : float_item rt (VDict items) field
                   = Raise (mkExn KeyError (py_repr_str field))).
  { rewrite float_item_dict, Hnone. reflexivity. }
  assert (G : forall names rest_names,
             (names ++ field :: rest_names)%list = V_names ->
             Forall (fun f => exists x, float_item rt (VDict items) f = Ok x) names ->
             mapM (float_item rt (VDict items)) V_names
             = Raise (mkExn KeyError (py_repr_str field))).
  { intros names rest_names <- Hnames.
    induction Hnames as [|f fs [x Hx] _ IH]; cbn [mapM app].
    - rewrite Hraise. reflexivity.
    - rewrite Hx. cbn [bind Monad_result]. rewrite IH. reflexivity. }
  unfold preprocess_data. rewrite <- (mapM_map (fun i => "V" ++ str_of_nat i)).
  fold V_names. unfold required_fields in Hsplit.
  destruct after as [|a after'] using rev_ind.
  - (* the missing key is Amount *)
    apply app_inj_tail in Hsplit as [<- <-].
    destruct (mapM_ok _ _ Hbefore) as [vs Hvs]. rewrite Hvs.
    cbn [bind Monad_result]. split.
    + intros [Hne | [sc Hsc]]; [contradiction|].
      rewrite Hsc. cbn [obj_transform]. rewrite Hraise. reflexivity.
    + intros _ Hno. destruct (scaler self) as [c|sc|v] eqn:Hs.
      * eexists. split; reflexivity.
      * exfalso. apply (Hno sc). reflexivity.
      * eexists. split; reflexivity.
  - (* the missing key is one of V1..V28 *)
    clear IHafter'.
    rewrite app_comm_cons, app_assoc in Hsplit. apply app_inj_tail in Hsplit as [Hs _].
    rewrite (G before after' (eq_sym Hs) Hbefore). split.
    + reflexivity.
    + intros Hnil. destruct after'; discriminate Hnil.
Qed.

(** A missing [V3] on the freshly constructed manager, whose scaler is
    [None]. *)
Lemma preprocess_data_missing_key_witness :
  preprocess_data sample_runtime ModelManager_init
    (VDict [("V1", VFloat 0); ("V2", VStr "1.5"); ("Amount", VFloat 3)])
  = Raise (mkExn KeyError "'V3'").
Proof.
  refine (proj1 (preprocess_data_missing_key sample_runtime ModelManager_init
                   [("V1", VFloat 0); ("V2", VStr "1.5"); ("Amount", VFloat 3)]
                   ["V1"; "V2"] (skipn 3 required_fields) "V3" _ _ _) _).
  - reflexivity.
  - repeat constructor; eexists; reflexivity.
  - reflexivity.
  - left. discriminate.
Defined.

(** A missing [Amount] on the same manager: the lookup of
    [self.scaler.transform] fails first; with a scaler it is [KeyError]. *)
Lemma preprocess_data_missing_amount :
  (exists e,
      preprocess_data sample_runtime ModelManager_init
        (VDict (map (fun name => (name, VFloat 0)) V_names)) = Raise e /\
      exn_class e = AttributeError) /\
  preprocess_data sample_runtime manager_standard_scaler
    (VDict (map (fun name => (name, VFloat 0)) V_names))
  = Raise (mkExn KeyError "'Amount'").
Proof.
  split; [eexists; split|]; vm_compute; reflexivity.
Qed.

(** ** The healthy answer of the health check *)

(** X22. On a loaded manager whose feature names have length [n] and whose
    classifier answers the all-zero row of [n] columns, [health_check]
    answers 200 with overall and model status [healthy], after exactly one
    call of the classifier, on that row; the manager is as before. *)
Theorem health_check_healthy (env : Env) (clock : Clock) (w : World)
  (n : nat) (labels : list Z) :
  model_loaded (model_manager w) = true ->
  obj_len (feature_names (model_manager w)) = Ok n ->
  obj_predict (modelo (model_manager w)) [repeat 0%float n] = Ok labels ->
  exists body,
    health_check env clock w
    = (Ok (body, 200),
       mkWorld (model_manager w) (calls w ++ [CallPredict [repeat 0%float n]])) /\
    json_path body ["api_status"] = Some (VStr "healthy") /\
    json_path body ["model_status"] = Some (VStr "healthy") /\
    json_path body ["model_loaded"] = Some (VBool true).
Proof.
  intros Hloaded Hlen Hpred.
  unfold health_check, try_except. cbn. rewrite Hloaded. cbn. rewrite Hlen. cbn.
  rewrite Hpred. cbn. eexists. repeat split.
Qed.

Lemma health_check_healthy_witness :
  exists body w',
    health_check env_empty sample_clock
      (mkWorld (ready_manager (constant_classifier 0 0.1)) [])
    = (Ok (body, 200), w') /\
    calls w' = [CallPredict [repeat 0%float 29]].
Proof.
  destruct (health_check_healthy env_empty sample_clock
              (mkWorld (ready_manager (constant_classifier 0 0.1)) []) 29 [0]
              eq_refl eq_refl eq_refl) as (body & H & _).
  exists body. eexists. split; [exact H | reflexivity].
Defined.

(** ** The test helper *)

(** X23. [_execute_test] scores a payload as [predict] does, without
    validating it: whenever [predict] answers 200 for a body, [_execute_test]
    on the same payload and state answers 200 with the same label, the same
    two rounded probabilities and the same status, and logs the calls to the
    preprocessor and the classifier but none to the validator. *)
Theorem execute_test_like_predict (rt : Runtime) (clock clock' : Clock)
  (request : Request) (dados : value) (descricao : string) (w w1 : World)
  (body : value) :
  get_json request = Ok dados ->
  predict rt clock request w = (Ok (body, 200), w1) ->
  exists body' entrada,
    _execute_test rt clock' dados descricao w
    = (Ok (body', 200),
       mkWorld (model_manager w)
         (calls w ++ [CallPreprocessData dados; CallPredict entrada;
                      CallPredictProba entrada])) /\
    json_path body' ["resultado"; "fraude"] = json_path body ["resultado"; "fraude"] /\
    json_path body' ["resultado"; "probabilidade_fraude"]
    = json_path body ["resultado"; "probabilidade_fraude"] /\
    json_path body' ["resultado"; "probabilidade_normal"]
    = json_path body ["resultado"; "probabilidade_normal"] /\
    json_path body' ["resultado"; "status"] = json_path body ["resultado"; "status"] /\
    json_path body' ["teste"; "dados_entrada"] = Some dados.
Proof.
  intros Hjson H.
  apply predict_200_inv in H.
  destruct H as (dados' & msg & entrada & labels & resultado & probas & probabilidades
                 & prob_fraude & prob_normal & modelo_tipo
                 & Hloaded & Hjson' & _ & Hpre & Hpred & Hlabel & Hproba & Hp0 & Hp1
                 & Hpn & ->).
  rewrite Hjson in Hjson'. injection Hjson' as <-.
  unfold _execute_test, try_except. cbn.
  rewrite Hloaded. cbn. rewrite Hpre. cbn. rewrite Hpred. cbn. rewrite Hlabel. cbn.
  rewrite Hproba. cbn. rewrite Hp0. cbn. rewrite Hp1. cbn. rewrite Hpn. cbn.
  rewrite <- !app_assoc. do 2 eexists. split; [reflexivity|].
  unfold prediction_response. repeat split.
Qed.

(** The payload of [GET /test] is one the validator accepts, and the route
    scores it as [POST /predict] does. *)
Lemma execute_test_like_predict_witness :
  validate_input sample_runtime dados_teste_normal = Ok (true, "Dados válidos") /\
  exists body' w',
    test_normal sample_runtime sample_clock
      (mkWorld (ready_manager (constant_classifier 0 0.1)) [])
    = (Ok (body', 200), w') /\
    json_path body' ["resultado"; "status"] = Some (VStr "NORMAL").
Proof.
  split; [vm_compute; reflexivity|].
  assert (H : predict sample_runtime sample_clock {| get_json := Ok dados_teste_normal |}
                (mkWorld (ready_manager (constant_classifier 0 0.1)) [])
              = _) by (vm_compute; reflexivity).
  destruct (execute_test_like_predict sample_runtime sample_clock sample_clock
              {| get_json := Ok dados_teste_normal |} dados_teste_normal
              "Transação Normal (Esperado: NORMAL)" _ _ _ eq_refl H)
    as (body' & entrada & Hrun & _ & _ & _ & Hstatus & _).
  exists body'. eexists. split; [exact Hrun|]. rewrite Hstatus. reflexivity.
Defined.

(** X24. [_execute_test] never raises and never writes to the model
    manager: it answers with code 200, 500 or 503, and on a manager that is
    not loaded it answers 503 without any call. *)
Theorem execute_test_always_answers (rt : Runtime) (clock : Clock) (dados_teste : value)
  (descricao : string) (w : World) :
  (exists body code w',
      _execute_test rt clock dados_teste descricao w = (Ok (body, code), w') /\
      (code = 200 \/ code = 500 \/ code = 503) /\
      model_manager w' = model_manager w) /\
  (model_loaded (model_manager w) = false ->
   _execute_test rt clock dados_teste descricao w
   = (Ok (VDict [("erro", VStr "Modelo não carregado para teste");
                 ("status", VStr "ERROR")], 503), w)).
Proof.
  unfold _execute_test, try_except. cbn.
  destruct (model_loaded (model_manager w)); cbn.
  2: { split; [do 3 eexists; split; [reflexivity | auto] | reflexivity]. }
  split; [|discriminate].
  repeat match goal with
         | |- context [match ?x with _ => _ end] =>
             lazymatch x with
             | context [match _ with _ => _ end] => fail
             | _ => destruct x; cbn
             end
         end.
  all: do 3 eexists; (split; [reflexivity|]); auto.
Qed.

(** ** The choice of the log file *)



